(** * pubmed_fetcher: search, detail fetch and field extraction

    A shallow embedding of [fetching_pubmed_paper/pubmed_fetcher.py].

    The program works on dynamically typed values: the tree produced by
    [xmltodict.parse], the object produced by [response.json()], and the
    record dictionaries it builds itself.  All of them are modelled by one
    type of Python values, [pyval]; the operations the source applies to
    them ([.get], [for ... in], [in], subscripting, [isinstance(_, list)],
    truth testing, [str.strip], f-string formatting) are written out with
    the exceptions they raise on the wrong kind of value. *)

From Stdlib Require Import List Bool NArith ZArith Lia Ascii String Floats.
From Stdlib Require Import DecimalString.
Import ListNotations.

Set Implicit Arguments.

(** ** Python strings *)

(** A Python [str] is a sequence of Unicode code points. *)
Definition pystr := list N.

(** ASCII literals of the source. *)
Fixpoint lit (s : string) : pystr :=
  match s with
  | EmptyString => []
  | String c s' => N_of_ascii c :: lit s'
  end.

Fixpoint pystr_eqb (a b : pystr) : bool :=
  match a, b with
  | [], [] => true
  | x :: a', y :: b' => N.eqb x y && pystr_eqb a' b'
  | _, _ => false
  end.

(** The characters [str.strip()] removes: CPython's [Py_UNICODE_ISSPACE]. *)
Definition is_space (c : N) : bool :=
  ((9 <=? c) && (c <=? 13) || (28 <=? c) && (c <=? 32)
   || (c =? 133) || (c =? 160) || (c =? 5760)
   || (8192 <=? c) && (c <=? 8202)
   || (c =? 8232) || (c =? 8233) || (c =? 8239) || (c =? 8287)
   || (c =? 12288))%N.

Fixpoint py_lstrip (s : pystr) : pystr :=
  match s with
  | [] => []
  | c :: s' => if is_space c then py_lstrip s' else s
  end.

Definition py_rstrip (s : pystr) : pystr := rev (py_lstrip (rev s)).

(** [s.strip()] *)
Definition py_strip (s : pystr) : pystr := py_rstrip (py_lstrip s).

Fixpoint is_prefix (p s : pystr) : bool :=
  match p, s with
  | [], _ => true
  | x :: p', y :: s' => N.eqb x y && is_prefix p' s'
  | _ :: _, [] => false
  end.

(** [needle in hay] for two strings: substring test. *)
Fixpoint py_substring (needle hay : pystr) : bool :=
  is_prefix needle hay ||
  match hay with
  | [] => false
  | _ :: hay' => py_substring needle hay'
  end.

(** ** Python values *)

Unset Elimination Schemes.
Inductive pyval : Type :=
| PNone
| PBool (b : bool)
| PInt (z : Z)
| PFloat (f : float)
| PStr (s : pystr)
| PList (l : list pyval)
| PDict (d : list (pystr * pyval)).
Set Elimination Schemes.

(** Exceptions the modelled code can raise.  [ExternalError] stands for
    whatever a library call ([requests.get], [response.json],
    [xmltodict.parse]) raises on its own. *)
Inductive exn : Type :=
| AttributeError
| TypeError
| KeyError
| ExternalError.

Inductive res (A : Type) : Type :=
| Ok (a : A)
| Raise (e : exn).
Arguments Raise {A} e.

Definition res_bind {A B} (r : res A) (k : A -> res B) : res B :=
  match r with
  | Ok a => k a
  | Raise e => Raise e
  end.

Declare Scope res_scope.
Delimit Scope res_scope with res.
Notation "x <-? e ;; k" := (res_bind e (fun x => k))
  (at level 61, e at next level, right associativity) : res_scope.
Open Scope res_scope.

(** Dictionaries keep insertion order; a key is bound once. *)
Fixpoint assoc (k : pystr) (d : list (pystr * pyval)) : option pyval :=
  match d with
  | [] => None
  | (k', v) :: d' => if pystr_eqb k k' then Some v else assoc k d'
  end.

(** [v.get(k, dflt)]: only dictionaries have the method. *)
Definition py_get (v : pyval) (k : pystr) (dflt : pyval) : res pyval :=
  match v with
  | PDict d =>
      match assoc k d with
      | Some x => Ok x
      | None => Ok dflt
      end
  | _ => Raise AttributeError
  end.

(** [for x in v]: the items the loop visits. *)
Definition py_iter (v : pyval) : res (list pyval) :=
  match v with
  | PList l => Ok l
  | PDict d => Ok (map (fun kv => PStr (fst kv)) d)
  | PStr s => Ok (map (fun c => PStr [c]) s)
  | _ => Raise TypeError
  end.

(** [PStr k == x] *)
Definition str_equals (k : pystr) (x : pyval) : bool :=
  match x with
  | PStr s => pystr_eqb k s
  | _ => false
  end.

(** [k in v] for a string [k]. *)
Definition py_contains (k : pystr) (v : pyval) : res bool :=
  match v with
  | PDict d => Ok (match assoc k d with Some _ => true | None => false end)
  | PList l => Ok (existsb (str_equals k) l)
  | PStr s => Ok (py_substring k s)
  | _ => Raise TypeError
  end.

(** [v[k]] for a string [k]. *)
Definition py_getitem (v : pyval) (k : pystr) : res pyval :=
  match v with
  | PDict d =>
      match assoc k d with
      | Some x => Ok x
      | None => Raise KeyError
      end
  | _ => Raise TypeError
  end.

(** [isinstance(v, list)] *)
Definition is_list (v : pyval) : bool :=
  match v with
  | PList _ => true
  | _ => false
  end.

Definition nonempty {A} (l : list A) : bool :=
  match l with
  | [] => false
  | _ :: _ => true
  end.

(** Truth value of [v] in [if v:] and [if not v:]. *)
Definition py_truthy (v : pyval) : bool :=
  match v with
  | PNone => false
  | PBool b => b
  | PInt z => negb (Z.eqb z 0)
  | PFloat f => negb (PrimFloat.eqb f PrimFloat.zero)
  | PStr s => nonempty s
  | PList l => nonempty l
  | PDict d => nonempty d
  end.

(** [str(v)] as an f-string field prints it.  The text of floats and of
    containers depends on CPython's [repr] (quoting rules, Unicode tables):
    it is left to [py_repr]. *)
Definition py_int_str (z : Z) : pystr :=
  lit (DecimalString.NilZero.string_of_int (Z.to_int z)).

Definition py_format (py_repr : pyval -> pystr) (v : pyval) : pystr :=
  match v with
  | PStr s => s
  | PNone => lit "None"
  | PBool true => lit "True"
  | PBool false => lit "False"
  | PInt z => py_int_str z
  | _ => py_repr v
  end.

(** [sep.join(v)]: every item must be a string. *)
Fixpoint join_strs (sep : pystr) (items : list pyval) : res pystr :=
  match items with
  | [] => Ok []
  | PStr s :: [] => Ok s
  | PStr s :: rest => r <-? join_strs sep rest ;; Ok (s ++ sep ++ r)
  | _ :: _ => Raise TypeError
  end.

Definition py_join (sep : pystr) (v : pyval) : res pystr :=
  items <-? py_iter v ;; join_strs sep items.

(** ** Effects: console, network, output file *)

Record response : Type := mkResponse {
  status_code : Z;
  json : res pyval;      (* response.json() *)
  text : pystr           (* response.text *)
}.

Inductive event : Type :=
| EvPrint (args : list pyval)
| EvHttpGet (url : pystr) (params : list (pystr * pyval))
| EvJsonDump (filename : pystr) (data : pyval).

(** A computation extends the trace of events and returns or raises. *)
Definition M (A : Type) : Type := list event -> res A * list event.

Definition ret {A} (a : A) : M A := fun t => (Ok a, t).

Definition bind {A B} (m : M A) (k : A -> M B) : M B :=
  fun t =>
    match m t with
    | (Ok a, t') => k a t'
    | (Raise e, t') => (Raise e, t')
    end.

Definition lift {A} (r : res A) : M A := fun t => (r, t).

Definition emit (e : event) : M unit := fun t => (Ok tt, t ++ [e]).

Definition print (args : list pyval) : M unit := emit (EvPrint args).

Declare Scope io_scope.
Delimit Scope io_scope with io.
Notation "x <- e ;; k" := (bind e (fun x => k))
  (at level 61, e at next level, right associativity) : io_scope.
Notation "e ;;; k" := (bind e (fun _ => k))
  (at level 61, right associativity) : io_scope.

(** ** The program *)

Section Program.

(** [repr] of floats and containers, as f-strings print them. *)
Variable py_repr : pyval -> pystr.

(** [xmltodict.parse]: the tree of an XML text, or the parser's exception. *)
Variable xmltodict_parse : pyval -> res pyval.

(** [requests.get(url, params=params)]: the response, or the library's
    exception when no response arrives. *)
Variable requests_get : pystr -> list (pystr * pyval) -> res response.

(** *** parse_pubmed_xml *)

(** [for author in author_list:] of the author names, with [authors] the
    list built so far. *)
Fixpoint authors_loop (author_list : list pyval) (authors : list pyval)
  : res (list pyval) :=
  match author_list with
  | [] => Ok authors
  | author :: rest =>
      last_name <-? py_get author (lit "LastName") (PStr []) ;;
      fore_name <-? py_get author (lit "ForeName") (PStr []) ;;
      let full_name :=
        py_strip (py_format py_repr fore_name ++ lit " "
                  ++ py_format py_repr last_name) in
      authors_loop rest
        (if nonempty full_name then authors ++ [PStr full_name] else authors)
  end.

(** [for aff in affiliation_info:] *)
Fixpoint aff_loop (affiliation_info : list pyval) (affiliations : list pyval)
  : res (list pyval) :=
  match affiliation_info with
  | [] => Ok affiliations
  | aff :: rest =>
      found <-? py_contains (lit "Affiliation") aff ;;
      if found : bool then
        a <-? py_getitem aff (lit "Affiliation") ;;
        aff_loop rest (affiliations ++ [a])
      else aff_loop rest affiliations
  end.

(** [for author in author_list:] of the affiliations. *)
Fixpoint affiliations_loop (author_list : list pyval) (affiliations : list pyval)
  : res (list pyval) :=
  match author_list with
  | [] => Ok affiliations
  | author :: rest =>
      affiliation_info <-? py_get author (lit "AffiliationInfo") (PList []) ;;
      match affiliation_info with
      | PList infos =>
          affiliations' <-? aff_loop infos affiliations ;;
          affiliations_loop rest affiliations'
      | _ => affiliations_loop rest affiliations
      end
  end.

(** The author names of an article, from the value of [author_list]. *)
Definition extract_authors (author_list : pyval) : res (list pyval) :=
  match author_list with
  | PList l => authors_loop l []
  | _ => Ok []
  end.

(** The affiliations of an article, from the value of [author_list]:
    [isinstance(author_list, list) and author_list]. *)
Definition extract_affiliations (author_list : pyval) : res (list pyval) :=
  match author_list with
  | PList l => if nonempty l then affiliations_loop l [] else Ok []
  | _ => Ok []
  end.

(** The dictionary appended to [extracted_data]. *)
Definition record (title : pyval) (authors affiliations : list pyval) : pyval :=
  PDict [ (lit "title", title);
          (lit "authors", PList authors);
          (lit "affiliations", PList affiliations) ].

Definition no_title : pyval := PStr (lit "No Title Found").

(** The body of [for article in articles:]. *)
Definition parse_article (article : pyval) : res pyval :=
  medline_citation <-? py_get article (lit "MedlineCitation") (PDict []) ;;
  article_info <-? py_get medline_citation (lit "Article") (PDict []) ;;
  title <-? py_get article_info (lit "ArticleTitle") no_title ;;
  author_list_node <-? py_get article_info (lit "AuthorList") (PDict []) ;;
  author_list <-? py_get author_list_node (lit "Author") (PList []) ;;
  authors <-? extract_authors author_list ;;
  affiliations <-? extract_affiliations author_list ;;
  Ok (record title authors affiliations).

(** [for article in articles:], with [extracted_data] the list so far. *)
Fixpoint articles_loop (articles : list pyval) (extracted_data : list pyval)
  : res (list pyval) :=
  match articles with
  | [] => Ok extracted_data
  | article :: rest =>
      r <-? parse_article article ;;
      articles_loop rest (extracted_data ++ [r])
  end.

(** [parse_pubmed_xml] after the parse and the debug print. *)
Definition extract_records (parsed_data : pyval) : res pyval :=
  article_set <-? py_get parsed_data (lit "PubmedArticleSet") (PDict []) ;;
  articles <-? py_get article_set (lit "PubmedArticle") (PList []) ;;
  items <-? py_iter articles ;;
  extracted_data <-? articles_loop items [] ;;
  Ok (PList extracted_data).

Definition debug_banner : pystr :=
  [10%N] ++ lit "DEBUG: Parsed XML to Dictionary Format:" ++ [10%N].

Definition parse_pubmed_xml (xml_data : pyval) : M pyval :=
  (parsed_data <- lift (xmltodict_parse xml_data) ;;
   print [PStr debug_banner; parsed_data] ;;;
   lift (extract_records parsed_data))%io.

(** *** Lookups and reference definitions used in the statements *)

Definition is_dict (v : pyval) : bool :=
  match v with
  | PDict _ => true
  | _ => false
  end.

(** [article_info] of an article, as the loop body computes it. *)
Definition article_info_of (article : pyval) : res pyval :=
  medline_citation <-? py_get article (lit "MedlineCitation") (PDict []) ;;
  py_get medline_citation (lit "Article") (PDict []).

(** [title] from [article_info]. *)
Definition title_of (article_info : pyval) : res pyval :=
  py_get article_info (lit "ArticleTitle") no_title.

(** [author_list] from [article_info]. *)
Definition author_list_of (article_info : pyval) : res pyval :=
  author_list_node <-? py_get article_info (lit "AuthorList") (PDict []) ;;
  py_get author_list_node (lit "Author") (PList []).

(** What the loop body does once [article_info] and [title] are known. *)
Definition finish_article (article_info title : pyval) : res pyval :=
  author_list <-? author_list_of article_info ;;
  authors <-? extract_authors author_list ;;
  affiliations <-? extract_affiliations author_list ;;
  Ok (record title authors affiliations).

(** The path citation -> article-info -> title is absent: a key of the
    path is missing from the dictionary that would hold it. *)
Definition title_path_absent (article : pyval) : bool :=
  match article with
  | PDict a =>
      match assoc (lit "MedlineCitation") a with
      | None => true
      | Some (PDict citation) =>
          match assoc (lit "Article") citation with
          | None => true
          | Some (PDict info) =>
              match assoc (lit "ArticleTitle") info with
              | None => true
              | Some _ => false
              end
          | Some _ => false
          end
      | Some _ => false
      end
  | _ => false
  end.

(** The value of a name field of an author entry, the empty string when
    missing. *)
Definition name_field (author : pyval) (k : pystr) : pyval :=
  match author with
  | PDict d =>
      match assoc k d with
      | Some v => v
      | None => PStr []
      end
  | _ => PStr []
  end.

(** ["<given-name> <family-name>"] before trimming. *)
Definition raw_name (author : pyval) : pystr :=
  py_format py_repr (name_field author (lit "ForeName")) ++ lit " "
  ++ py_format py_repr (name_field author (lit "LastName")).

Definition display_name (author : pyval) : pystr := py_strip (raw_name author).

(** The authors of the specification: the non-empty display names, in
    author-list order. *)
Definition spec_authors (author_list : list pyval) : list pyval :=
  map PStr (filter nonempty (map display_name author_list)).

(** The affiliation of one entry of an affiliation-info list. *)
Definition spec_entry_affiliation (aff : pyval) : list pyval :=
  match aff with
  | PDict d =>
      match assoc (lit "Affiliation") d with
      | Some a => [a]
      | None => []
      end
  | _ => []
  end.

(** The affiliations of one author: those of its list-form
    affiliation-info, none otherwise. *)
Definition spec_author_affiliations (author : pyval) : list pyval :=
  match author with
  | PDict d =>
      match assoc (lit "AffiliationInfo") d with
      | Some (PList infos) => flat_map spec_entry_affiliation infos
      | _ => []
      end
  | _ => []
  end.

(** The affiliations of the specification: one flat sequence, in author
    order. *)
Definition spec_affiliations (author_list : list pyval) : list pyval :=
  flat_map spec_author_affiliations author_list.

(** An author entry on which both loops run through: a dictionary whose
    affiliation-info, when a list, holds dictionaries. *)
Definition author_wf (author : pyval) : bool :=
  match author with
  | PDict d =>
      match assoc (lit "AffiliationInfo") d with
      | Some (PList infos) => forallb is_dict infos
      | _ => true
      end
  | _ => false
  end.

(** A string without leading or trailing whitespace. *)
Definition trimmed (s : pystr) : Prop :=
  (forall c r, s = c :: r -> is_space c = false) /\
  (forall c r, s = r ++ [c] -> is_space c = false).

(** The shape of a record: the three keys, in the order the dictionary is
    built, with list values for authors and affiliations and non-empty
    strings for the author names. *)
Definition record_ok (r : pyval) : Prop :=
  exists title authors affiliations,
    r = PDict [ (lit "title", title);
                (lit "authors", PList authors);
                (lit "affiliations", PList affiliations) ] /\
    Forall (fun a => exists s, a = PStr s /\ s <> []) authors.

(** [for x in l: ys.append(f(x))] as a map that stops at the first
    exception. *)
Fixpoint map_res {A B} (f : A -> res B) (l : list A) : res (list B) :=
  match l with
  | [] => Ok []
  | x :: l' => y <-? f x ;; ys <-? map_res f l' ;; Ok (y :: ys)
  end.

(** *** fetch_pubmed_papers *)

Definition esearch_url : pystr :=
  lit "https://eutils.ncbi.nlm.nih.gov/entrez/eutils/esearch.fcgi".

Definition efetch_url : pystr :=
  lit "https://eutils.ncbi.nlm.nih.gov/entrez/eutils/efetch.fcgi".

(** One call of [requests.get]: the request is recorded in the trace. *)
Definition http_get (url : pystr) (params : list (pystr * pyval)) : M response :=
  (emit (EvHttpGet url params) ;;; lift (requests_get url params))%io.

Definition search_params (query : pyval) : list (pystr * pyval) :=
  [ (lit "db", PStr (lit "pubmed"));
    (lit "term", query);
    (lit "retmode", PStr (lit "json"));
    (lit "retmax", PInt 10) ].

Definition search_error_banner : pystr := lit "Error fetching data from PubMed:".

Definition fetch_pubmed_papers (query : pyval) : M pyval :=
  (let base_url := esearch_url in
   let params := search_params query in
   response <- http_get base_url params ;;
   if Z.eqb (status_code response) 200 then
     data <- lift (json response) ;;
     lift (esearchresult <-? py_get data (lit "esearchresult") (PDict []) ;;
           py_get esearchresult (lit "idlist") (PList []))
   else
     print [PStr search_error_banner; PInt (status_code response)] ;;;
     ret (PList []))%io.

(** *** fetch_paper_details *)

Definition no_ids_notice : pystr := lit "No paper IDs found.".

Definition details_error_banner : pystr :=
  lit "Error fetching details from PubMed:".

Definition details_params (ids : pystr) : list (pystr * pyval) :=
  [ (lit "db", PStr (lit "pubmed"));
    (lit "id", PStr ids);
    (lit "retmode", PStr (lit "xml")) ].

Definition fetch_paper_details (paper_ids : pyval) : M pyval :=
  (if negb (py_truthy paper_ids) then
     print [PStr no_ids_notice] ;;;
     ret PNone
   else
     let base_url := efetch_url in
     ids <- lift (py_join (lit ",") paper_ids) ;;
     let params := details_params ids in
     response <- http_get base_url params ;;
     if Z.eqb (status_code response) 200 then
       ret (PStr (text response))
     else
       print [PStr details_error_banner; PInt (status_code response)] ;;;
       ret PNone)%io.

(** *** save_to_json *)

Definition save_to_json (data : pyval) (filename : pystr) : M unit :=
  (emit (EvJsonDump filename data) ;;;
   print [PStr ([10%N; 9989%N] ++ lit " Data saved successfully to " ++ filename)])%io.

(** *** The script *)

(** [', '.join(v) if v else dflt] *)
Definition join_or (v : pyval) (dflt : pystr) : res pystr :=
  if py_truthy v then py_join (lit ", ") v else Ok dflt.

Definition print_paper (index : Z) (paper : pyval) : M unit :=
  (print [PStr ([10%N; 128313%N] ++ lit " Paper " ++ py_int_str index ++ lit ":")] ;;;
   title <- lift (py_getitem paper (lit "title")) ;;
   print [PStr ([128204%N] ++ lit " Title: " ++ py_format py_repr title)] ;;;
   authors <- lift (py_getitem paper (lit "authors")) ;;
   authors_text <- lift (join_or authors (lit "No Authors Found")) ;;
   print [PStr ([128221%N] ++ lit " Authors: " ++ authors_text)] ;;;
   affiliations <- lift (py_getitem paper (lit "affiliations")) ;;
   affiliations_text <- lift (join_or affiliations (lit "No Affiliations Found")) ;;
   print [PStr ([127963%N; 65039%N] ++ lit " Affiliations: " ++ affiliations_text)])%io.

(** [for index, paper in enumerate(parsed_data, 1):] *)
Fixpoint print_papers (papers : list pyval) (index : Z) : M unit :=
  match papers with
  | [] => ret tt
  | paper :: rest =>
      (print_paper index paper ;;; print_papers rest (index + 1))%io
  end.

Definition main (query : pystr) : M unit :=
  (print [PStr ([10%N; 128269%N] ++ lit " Searching PubMed for: " ++ query)] ;;;
   paper_ids <- fetch_pubmed_papers (PStr query) ;;
   print [PStr (lit "Fetched Paper IDs:"); paper_ids] ;;;
   if py_truthy paper_ids then
     details <- fetch_paper_details paper_ids ;;
     print [PStr ([10%N] ++ lit "Extracting Paper Details...")] ;;;
     parsed_data <- parse_pubmed_xml details ;;
     papers <- lift (py_iter parsed_data) ;;
     print_papers papers 1 ;;;
     save_to_json parsed_data (lit "pubmed_results.json")
   else
     ret tt)%io.

(** Number of requests to the fetch endpoint in a trace. *)
Definition is_detail_fetch (e : event) : bool :=
  match e with
  | EvHttpGet url _ => pystr_eqb url efetch_url
  | _ => false
  end.

Definition detail_fetch_calls (t : list event) : nat :=
  List.length (filter is_detail_fetch t).

Definition is_http_get (e : event) : bool :=
  match e with
  | EvHttpGet _ _ => true
  | _ => false
  end.

(** Number of network calls in a trace. *)
Definition network_calls (t : list event) : nat :=
  List.length (filter is_http_get t).

End Program.

(** ** Sample documents and responses *)

(** Trees as [xmltodict.parse] builds them: an element with children is a
    dictionary, repeated siblings are a list, a lone sibling is the element
    itself. *)

Definition str (s : string) : pyval := PStr (lit s).

Definition jane_doe : pyval :=
  PDict [ (lit "LastName", str "Doe");
          (lit "ForeName", str "Jane");
          (lit "AffiliationInfo",
           PList [ PDict [(lit "Affiliation", str "Lab X")];
                   PDict [(lit "Affiliation", str "Lab Y")] ]) ].

(** An author with empty names. *)
Definition nameless : pyval :=
  PDict [ (lit "LastName", PStr []); (lit "ForeName", PStr []) ].

(** An author with one affiliation-info element: a dictionary, not a list. *)
Definition john_roe : pyval :=
  PDict [ (lit "LastName", str "Roe");
          (lit "ForeName", str "John");
          (lit "AffiliationInfo", PDict [(lit "Affiliation", str "Lab Z")]) ].

Definition authors_a : list pyval := [jane_doe; nameless; john_roe].

Definition info_a : pyval :=
  PDict [ (lit "ArticleTitle", str "Study A");
          (lit "AuthorList", PDict [(lit "Author", PList authors_a)]) ].

Definition article_a : pyval :=
  PDict [ (lit "MedlineCitation",
           PDict [ (lit "PMID", str "111"); (lit "Article", info_a) ]) ].

(** One author element: [Author] is the author itself. *)
Definition info_single_author : pyval :=
  PDict [ (lit "ArticleTitle", str "Study B");
          (lit "AuthorList", PDict [(lit "Author", jane_doe)]) ].

Definition article_single_author : pyval :=
  PDict [ (lit "MedlineCitation",
           PDict [ (lit "PMID", str "333");
                   (lit "Article", info_single_author) ]) ].

(** No title element and no author list. *)
Definition article_untitled : pyval :=
  PDict [ (lit "MedlineCitation",
           PDict [ (lit "PMID", str "222");
                   (lit "Article", PDict [(lit "Language", str "eng")]) ]) ].

Definition document (articles : pyval) : pyval :=
  PDict [ (lit "PubmedArticleSet", PDict [(lit "PubmedArticle", articles)]) ].

Definition two_article_doc : pyval := document (PList [article_a; article_untitled]).

(** The document of a fetch that found one article. *)
Definition single_article_doc : pyval := document article_a.

(** A parser that answers with a given tree. *)
Definition parse_to (tree : pyval) : pyval -> res pyval := fun _ => Ok tree.

Definition sample_repr : pyval -> pystr := fun _ => lit "<value>".

Definition reply (status : Z) (body : res pyval) (txt : pystr)
  : pystr -> list (pystr * pyval) -> res response :=
  fun _ _ => Ok (mkResponse status body txt).

(** A search that matches nothing. *)
Definition net_no_match : pystr -> list (pystr * pyval) -> res response :=
  reply 200
    (Ok (PDict [(lit "esearchresult",
                 PDict [(lit "count", str "0"); (lit "idlist", PList [])])]))
    [].

Definition net_empty_idlist : pystr -> list (pystr * pyval) -> res response :=
  reply 200 (Ok (PDict [(lit "esearchresult", PDict [(lit "idlist", PList [])])])) [].

(** A success response whose body has no result keys. *)
Definition net_no_keys : pystr -> list (pystr * pyval) -> res response :=
  reply 200 (Ok (PDict [(lit "header", PDict [(lit "type", str "esearch")])])) [].

Definition net_unavailable : pystr -> list (pystr * pyval) -> res response :=
  reply 503 (Raise ExternalError) (lit "Service Unavailable").

(** ** Observations on runs and traces *)

(** A computation run from the empty trace: what it returns and what it
    emits. *)
Definition run_result {A} (m : M A) : res A := fst (m []).

Definition run_events {A} (m : M A) : list event := snd (m []).

(** A computation that only appends to the trace it is given and does not
    read it. *)
Definition framed {A} (m : M A) : Prop :=
  forall t, m t = (run_result m, t ++ run_events m).

Definition is_print (e : event) : bool :=
  match e with
  | EvPrint _ => true
  | _ => false
  end.

(** The files written in a trace: name and data, in order. *)
Definition json_dumps (t : list event) : list (pystr * pyval) :=
  flat_map (fun e => match e with EvJsonDump f d => [(f, d)] | _ => [] end) t.

(** The requests of a trace: endpoint and parameters, in order. *)
Definition requests (t : list event) : list (pystr * list (pystr * pyval)) :=
  flat_map (fun e => match e with EvHttpGet u ps => [(u, ps)] | _ => [] end) t.

Definition is_str (v : pyval) : bool :=
  match v with
  | PStr _ => true
  | _ => false
  end.

(** [sep.join(ss)] for strings [ss]. *)
Fixpoint intercalate (sep : pystr) (ss : list pystr) : pystr :=
  match ss with
  | [] => []
  | s :: rest =>
      match rest with
      | [] => s
      | _ :: _ => s ++ sep ++ intercalate sep rest
      end
  end.

(** An entry of an affiliation-info list on which the membership test or
    the subscript raises: anything but a dictionary, unless it is a string
    without the word or a list without the string. *)
Definition aff_entry_raises (aff : pyval) : bool :=
  match aff with
  | PDict _ => false
  | PStr s => py_substring (lit "Affiliation") s
  | PList l => existsb (str_equals (lit "Affiliation")) l
  | _ => true
  end.

(** An author dictionary whose affiliation-info, when a list, has no such
    entry. *)
Definition affiliation_info_ok (author : pyval) : bool :=
  match author with
  | PDict d =>
      match assoc (lit "AffiliationInfo") d with
      | Some (PList infos) => negb (existsb aff_entry_raises infos)
      | _ => true
      end
  | _ => false
  end.

(** A record whose affiliations are all strings. *)
Definition affiliations_are_strings (r : pyval) : bool :=
  match py_getitem r (lit "affiliations") with
  | Ok (PList l) => forallb is_str l
  | _ => false
  end.

(** A computation that only prints. *)
Definition quiet {A} (m : M A) : Prop :=
  framed m /\ forallb is_print (run_events m) = true.

(** The strings among the items of a list. *)
Definition strings_of (l : list pyval) : list pystr :=
  flat_map (fun v => match v with PStr s => [s] | _ => [] end) l.

(** The text printed for a list of strings: joined by [", "], or the
    given words when the list is empty. *)
Definition joined_or (l : list pyval) (dflt : pystr) : pystr :=
  if nonempty l then intercalate (lit ", ") (strings_of l) else dflt.

(** The lines of the script. *)
Definition searching_line (query : pystr) : event :=
  EvPrint [PStr ([10%N; 128269%N] ++ lit " Searching PubMed for: " ++ query)].

Definition fetched_line (paper_ids : pyval) : event :=
  EvPrint [PStr (lit "Fetched Paper IDs:"); paper_ids].

Definition extracting_line : event :=
  EvPrint [PStr ([10%N] ++ lit "Extracting Paper Details...")].

Definition saved_line (filename : pystr) : event :=
  EvPrint [PStr ([10%N; 9989%N] ++ lit " Data saved successfully to " ++ filename)].

Definition title_line (py_repr : pyval -> pystr) (title : pyval) : event :=
  EvPrint [PStr ([128204%N] ++ lit " Title: " ++ py_format py_repr title)].

Definition authors_line (authors : list pyval) : event :=
  EvPrint [PStr ([128221%N] ++ lit " Authors: "
                 ++ joined_or authors (lit "No Authors Found"))].

Definition affiliations_line (affiliations : list pyval) : event :=
  EvPrint [PStr ([127963%N; 65039%N] ++ lit " Affiliations: "
                 ++ joined_or affiliations (lit "No Affiliations Found"))].

(** The header line of the paper printed with number [index]. *)
Definition paper_header (index : Z) : event :=
  EvPrint [PStr ([10%N; 128313%N] ++ lit " Paper " ++ py_int_str index ++ lit ":")].

(** The four lines printed for a record, numbered [index]. *)
Definition paper_lines (py_repr : pyval -> pystr) (index : Z) (r : pyval)
  : list event :=
  match py_getitem r (lit "title"),
        py_getitem r (lit "authors"),
        py_getitem r (lit "affiliations") with
  | Ok title, Ok (PList authors), Ok (PList affiliations) =>
      [ paper_header index; title_line py_repr title;
        authors_line authors; affiliations_line affiliations ]
  | _, _, _ => []
  end.

Fixpoint papers_lines (py_repr : pyval -> pystr) (rs : list pyval) (index : Z)
  : list event :=
  match rs with
  | [] => []
  | r :: rest => paper_lines py_repr index r ++ papers_lines py_repr rest (index + 1)
  end.

Definition output_file : pystr := lit "pubmed_results.json".

(** A network that answers the search with the identifiers 111 and 222 and
    the fetch with a document. *)
Definition net_two_ids : pystr -> list (pystr * pyval) -> res response :=
  fun url _ =>
    if pystr_eqb url esearch_url then
      Ok (mkResponse 200
            (Ok (PDict [(lit "esearchresult",
                         PDict [(lit "idlist", PList [str "111"; str "222"])])]))
            [])
    else
      Ok (mkResponse 200 (Raise ExternalError) (lit "<PubmedArticleSet/>")).

(** The search finds two identifiers, the fetch is refused. *)
Definition net_fetch_refused : pystr -> list (pystr * pyval) -> res response :=
  fun url _ =>
    if pystr_eqb url esearch_url then
      Ok (mkResponse 200
            (Ok (PDict [(lit "esearchresult",
                         PDict [(lit "idlist", PList [str "111"; str "222"])])]))
            [])
    else
      Ok (mkResponse 429 (Raise ExternalError) (lit "Too Many Requests")).

(** A parser that rejects everything. *)
Definition parse_fails : pyval -> res pyval := fun _ => Raise ExternalError.

(** More sample inputs. *)

(** No response at all. *)
Definition net_down : pystr -> list (pystr * pyval) -> res response :=
  fun _ _ => Raise ExternalError.

(** A success response whose body is a JSON array. *)
Definition net_array_body : pystr -> list (pystr * pyval) -> res response :=
  reply 200 (Ok (PList [])) [].

Definition idlist_body : list (pystr * pyval) :=
  [(lit "esearchresult", PDict [(lit "idlist", PList [str "111"; str "222"])])].

(** A document with another root element. *)
Definition doc_other_root : list (pystr * pyval) :=
  [(lit "eFetchResult", PDict [(lit "ERROR", str "Empty id list")])].

(** The document of an empty article set element. *)
Definition doc_empty_set : list (pystr * pyval) :=
  [(lit "PubmedArticleSet", PNone)].

(** An article whose second author element is empty. *)
Definition info_bad_author : pyval :=
  PDict [ (lit "ArticleTitle", str "Study C");
          (lit "AuthorList", PDict [(lit "Author", PList [jane_doe; PNone])]) ].

Definition article_bad_author : pyval :=
  PDict [ (lit "MedlineCitation",
           PDict [ (lit "PMID", str "444"); (lit "Article", info_bad_author) ]) ].

Definition record_a : pyval :=
  record (str "Study A") [str "Jane Doe"; str "John Roe"] [str "Lab X"; str "Lab Y"].

Definition record_untitled : pyval := record no_title [] [].

(** Navigation in the parsed tree: the node at the end of a path of
    element names, when every step finds a dictionary that holds the next
    name. *)
Fixpoint lookup_path (path : list pystr) (v : pyval) : option pyval :=
  match path with
  | [] => Some v
  | k :: path' =>
      match v with
      | PDict d =>
          match assoc k d with
          | Some x => lookup_path path' x
          | None => None
          end
      | _ => None
      end
  end.

(** citation -> article-info -> title *)
Definition title_path : list pystr :=
  [lit "MedlineCitation"; lit "Article"; lit "ArticleTitle"].

(** An author whose name elements are both empty: the parser gives [None]
    for an empty element. *)
Definition author_empty_names : pyval :=
  PDict [ (lit "LastName", PNone); (lit "ForeName", PNone) ].

Definition info_empty_names : pyval :=
  PDict [ (lit "ArticleTitle", str "Study D");
          (lit "AuthorList",
           PDict [(lit "Author", PList [jane_doe; author_empty_names])]) ].

Definition article_empty_names : pyval :=
  PDict [ (lit "MedlineCitation",
           PDict [ (lit "PMID", str "555"); (lit "Article", info_empty_names) ]) ].

(** * Properties *)

(** ** Strings *)

Lemma pystr_eqb_refl (a : pystr) : pystr_eqb a a = true.
Proof.
  induction a as [|x a IH]; simpl; [reflexivity|].
  now rewrite N.eqb_refl, IH.
Qed.

Lemma pystr_eqb_eq (a b : pystr) : pystr_eqb a b = true <-> a = b.
Proof.
  split.
  - revert b; induction a as [|x a IH]; intros [|y b]; simpl; try discriminate; auto.
    intros H. apply andb_true_iff in H as [Hx Hab].
    apply N.eqb_eq in Hx. f_equal; auto.
  - intros ->. apply pystr_eqb_refl.
Qed.

Lemma py_lstrip_split (s : pystr) :
  exists ws, s = ws ++ py_lstrip s /\ forallb is_space ws = true.
Proof.
  induction s as [|c s IH]; simpl.
  - exists []. split; reflexivity.
  - destruct (is_space c) eqn:Hc.
    + destruct IH as [ws [Hs Hws]].
      exists (c :: ws). simpl. rewrite Hc, Hws. split; [now f_equal | reflexivity].
    + exists []. split; reflexivity.
Qed.

Lemma py_lstrip_head (s : pystr) (c : N) (r : pystr) :
  py_lstrip s = c :: r -> is_space c = false.
Proof.
  induction s as [|x s IH]; simpl; [discriminate|].
  destruct (is_space x) eqn:Hx; [exact IH|].
  intros H. injection H as -> _. exact Hx.
Qed.

Lemma forallb_rev {A} (f : A -> bool) (l : list A) :
  forallb f l = true -> forallb f (rev l) = true.
Proof.
  intros H. apply forallb_forall. intros x Hx.
  apply in_rev in Hx. rewrite forallb_forall in H. now apply H.
Qed.

(** [strip] removes a run of whitespace at each end and nothing else. *)
Lemma py_strip_split (s : pystr) :
  exists ws1 ws2,
    s = ws1 ++ py_strip s ++ ws2 /\
    forallb is_space ws1 = true /\ forallb is_space ws2 = true.
Proof.
  destruct (py_lstrip_split s) as [ws1 [Hs H1]].
  destruct (py_lstrip_split (rev (py_lstrip s))) as [ws2 [Hr H2]].
  exists ws1, (rev ws2). repeat split; auto using forallb_rev.
  unfold py_strip, py_rstrip.
  rewrite <- rev_app_distr, <- Hr, rev_involutive. exact Hs.
Qed.

Lemma py_strip_trimmed (s : pystr) : trimmed (py_strip s).
Proof.
  split; intros c r H.
  - destruct (py_lstrip_split (rev (py_lstrip s))) as [ws2 [Hr _]].
    apply (f_equal (@rev N)) in Hr.
    rewrite rev_involutive, rev_app_distr in Hr.
    fold (py_rstrip (py_lstrip s)) in Hr. fold (py_strip s) in Hr.
    rewrite H in Hr. simpl in Hr.
    now apply (py_lstrip_head s (r := r ++ rev ws2)).
  - unfold py_strip, py_rstrip in H.
    apply (f_equal (@rev N)) in H.
    rewrite rev_involutive, rev_app_distr in H. simpl in H.
    now apply (py_lstrip_head _ H).
Qed.

(** ** The loops of the Extractor *)

Arguments lit : simpl never.
Arguments py_strip : simpl never.

Lemma res_bind_assoc {A B C} (r : res A) (f : A -> res B) (g : B -> res C) :
  res_bind (res_bind r f) g = res_bind r (fun a => res_bind (f a) g).
Proof. destruct r; reflexivity. Qed.

Lemma map_res_length {A B} (f : A -> res B) (l : list A) (ys : list B) :
  map_res f l = Ok ys -> List.length ys = List.length l.
Proof.
  revert ys; induction l as [|x l IH]; simpl; intros ys H.
  - injection H as <-. reflexivity.
  - destruct (f x) as [y|e]; simpl in H; [|discriminate].
    destruct (map_res f l) as [ys'|e]; simpl in H; [|discriminate].
    injection H as <-. simpl. f_equal. now apply IH.
Qed.

Lemma map_res_Forall2 {A B} (f : A -> res B) (l : list A) (ys : list B) :
  map_res f l = Ok ys -> Forall2 (fun x y => f x = Ok y) l ys.
Proof.
  revert ys; induction l as [|x l IH]; simpl; intros ys H.
  - injection H as <-. constructor.
  - destruct (f x) as [y|e] eqn:Hx; simpl in H; [|discriminate].
    destruct (map_res f l) as [ys'|e]; simpl in H; [|discriminate].
    injection H as <-. constructor; auto.
Qed.

Lemma map_res_total {A B} (f : A -> res B) (l : list A) :
  Forall (fun x => exists y, f x = Ok y) l -> exists ys, map_res f l = Ok ys.
Proof.
  induction 1 as [|x l [y Hy] _ [ys Hys]]; simpl.
  - now exists [].
  - exists (y :: ys). now rewrite Hy, Hys.
Qed.

Section Extractor.

Variable py_repr : pyval -> pystr.

Lemma authors_loop_dict (d : list (pystr * pyval)) (l authors : list pyval) :
  authors_loop py_repr (PDict d :: l) authors =
  authors_loop py_repr l
    (if nonempty (display_name py_repr (PDict d))
     then authors ++ [PStr (display_name py_repr (PDict d))]
     else authors).
Proof.
  unfold display_name, raw_name, name_field. simpl.
  destruct (assoc (lit "LastName") d), (assoc (lit "ForeName") d); reflexivity.
Qed.

Lemma authors_loop_not_dict (a : pyval) (l authors : list pyval) :
  is_dict a = false -> authors_loop py_repr (a :: l) authors = Raise AttributeError.
Proof. destruct a; simpl; intros H; try reflexivity; discriminate. Qed.

Lemma spec_authors_cons (a : pyval) (l : list pyval) :
  spec_authors py_repr (a :: l) =
  (if nonempty (display_name py_repr a) then [PStr (display_name py_repr a)] else [])
  ++ spec_authors py_repr l.
Proof.
  unfold spec_authors. simpl.
  destruct (nonempty (display_name py_repr a)); reflexivity.
Qed.

Lemma authors_loop_total (l : list pyval) :
  Forall (fun a => is_dict a = true) l ->
  forall authors,
    authors_loop py_repr l authors = Ok (authors ++ spec_authors py_repr l).
Proof.
  induction 1 as [|a l Ha _ IH]; intros authors.
  - simpl. now rewrite app_nil_r.
  - destruct a; try discriminate.
    rewrite authors_loop_dict, IH, spec_authors_cons.
    destruct (nonempty _); simpl; [now rewrite <- app_assoc | reflexivity].
Qed.

Lemma authors_loop_ok_dicts (l : list pyval) :
  forall authors r,
    authors_loop py_repr l authors = Ok r -> Forall (fun a => is_dict a = true) l.
Proof.
  induction l as [|a l IH]; intros authors r H; [constructor|].
  destruct (is_dict a) eqn:Ha.
  - constructor; [exact Ha|]. destruct a; try discriminate.
    rewrite authors_loop_dict in H. eapply IH; eauto.
  - rewrite authors_loop_not_dict in H by assumption. discriminate.
Qed.

Lemma extract_authors_partial (l r : list pyval) :
  extract_authors py_repr (PList l) = Ok r -> r = spec_authors py_repr l.
Proof.
  simpl. intros H. pose proof (authors_loop_ok_dicts _ _ H) as Hd.
  rewrite (authors_loop_total Hd) in H. now injection H as <-.
Qed.

Lemma spec_authors_nonempty (l : list pyval) :
  Forall (fun a => exists s, a = PStr s /\ s <> []) (spec_authors py_repr l).
Proof.
  unfold spec_authors. apply Forall_forall. intros a Ha.
  apply in_map_iff in Ha as [s [<- Hs]].
  apply filter_In in Hs as [_ Hs].
  exists s. split; [reflexivity|]. now destruct s.
Qed.

(** Affiliations. *)

Lemma aff_loop_partial (infos : list pyval) :
  forall affiliations r,
    aff_loop infos affiliations = Ok r ->
    r = affiliations ++ flat_map spec_entry_affiliation infos.
Proof.
  induction infos as [|aff infos IH]; intros affiliations r H; simpl in *.
  - injection H as <-. now rewrite app_nil_r.
  - destruct aff; simpl in *; try discriminate.
    + destruct (py_substring (lit "Affiliation") s); simpl in H; try discriminate.
      now apply IH.
    + destruct (existsb (str_equals (lit "Affiliation")) l); simpl in H;
        try discriminate.
      now apply IH.
    + destruct (assoc (lit "Affiliation") d) as [a|]; simpl in *.
      * apply IH in H. rewrite <- app_assoc in H. exact H.
      * now apply IH.
Qed.

Lemma aff_loop_total (infos : list pyval) :
  forallb is_dict infos = true ->
  forall affiliations,
    aff_loop infos affiliations =
    Ok (affiliations ++ flat_map spec_entry_affiliation infos).
Proof.
  induction infos as [|aff infos IH]; intros Hd affiliations; simpl in *.
  - now rewrite app_nil_r.
  - apply andb_true_iff in Hd as [Ha Hd]. destruct aff; try discriminate. simpl.
    destruct (assoc (lit "Affiliation") d) as [a|]; simpl.
    + rewrite (IH Hd). now rewrite <- app_assoc.
    + now rewrite (IH Hd).
Qed.

Lemma affiliations_loop_partial (l : list pyval) :
  forall affiliations r,
    affiliations_loop l affiliations = Ok r ->
    r = affiliations ++ spec_affiliations l.
Proof.
  unfold spec_affiliations.
  induction l as [|author l IH]; intros affiliations r H; simpl in *.
  - injection H as <-. now rewrite app_nil_r.
  - destruct author as [| | | | | |d]; simpl in *; try discriminate.
    destruct (assoc (lit "AffiliationInfo") d) as [info|]; simpl in *.
    + destruct info as [| | | | |infos|]; try (apply IH in H; exact H).
      destruct (aff_loop infos affiliations) as [a'|e] eqn:Ha; simpl in H;
        [|discriminate].
      apply aff_loop_partial in Ha. apply IH in H. subst.
      now rewrite <- app_assoc.
    + apply IH in H. exact H.
Qed.

Lemma affiliations_loop_total (l : list pyval) :
  Forall (fun a => author_wf a = true) l ->
  forall affiliations,
    affiliations_loop l affiliations = Ok (affiliations ++ spec_affiliations l).
Proof.
  unfold spec_affiliations.
  induction 1 as [|author l Ha _ IH]; intros affiliations; simpl.
  - now rewrite app_nil_r.
  - destruct author as [| | | | | |d]; try discriminate. simpl in *.
    destruct (assoc (lit "AffiliationInfo") d) as [info|]; simpl.
    + destruct info as [| | | | |infos|]; try apply IH.
      rewrite (aff_loop_total _ Ha). simpl. rewrite IH. now rewrite <- app_assoc.
    + apply IH.
Qed.

Lemma extract_affiliations_partial (l r : list pyval) :
  extract_affiliations (PList l) = Ok r -> r = spec_affiliations l.
Proof.
  simpl. destruct l as [|a l]; simpl nonempty; cbv iota.
  - intros H. now injection H as <-.
  - intros H. now apply affiliations_loop_partial in H.
Qed.

Lemma extract_affiliations_total (l : list pyval) :
  Forall (fun a => author_wf a = true) l ->
  extract_affiliations (PList l) = Ok (spec_affiliations l).
Proof.
  intros H. simpl. destruct l as [|a l]; [reflexivity|].
  simpl nonempty; cbv iota. now rewrite (affiliations_loop_total H).
Qed.

Lemma author_wf_is_dict (a : pyval) : author_wf a = true -> is_dict a = true.
Proof. destruct a; simpl; auto. Qed.

(** The loop body, split at [article_info] and [title]. *)
Lemma parse_article_unfold (article : pyval) :
  parse_article py_repr article =
  (article_info <-? article_info_of article ;;
   title <-? title_of article_info ;;
   finish_article py_repr article_info title).
Proof.
  unfold parse_article, article_info_of, title_of, finish_article, author_list_of.
  rewrite !res_bind_assoc.
  destruct (py_get article _ _) as [mc|]; simpl; [|reflexivity].
  destruct (py_get mc _ _) as [ai|]; simpl; [|reflexivity].
  destruct (py_get ai (lit "ArticleTitle") _) as [ti|]; simpl; [|reflexivity].
  now rewrite !res_bind_assoc.
Qed.

Lemma finish_article_record (article_info title r : pyval) :
  finish_article py_repr article_info title = Ok r ->
  exists authors affiliations, r = record title authors affiliations.
Proof.
  unfold finish_article. intros H.
  destruct (author_list_of article_info) as [al|]; simpl in H; [|discriminate].
  destruct (extract_authors py_repr al) as [au|]; simpl in H; [|discriminate].
  destruct (extract_affiliations al) as [af|]; simpl in H; [|discriminate].
  injection H as <-. now exists au, af.
Qed.

Lemma author_list_of_ok_title (article_info author_list : pyval) :
  author_list_of article_info = Ok author_list ->
  exists title, title_of article_info = Ok title.
Proof.
  unfold author_list_of, title_of.
  destruct article_info as [| | | | | |d]; try discriminate. intros _. simpl.
  destruct (assoc (lit "ArticleTitle") d); eauto.
Qed.

(** An article whose author-list is in list form: what the record holds
    when the loop body returns, and that it returns on well-formed authors. *)
Lemma parse_article_list_form (article article_info : pyval) (l : list pyval) :
  article_info_of article = Ok article_info ->
  author_list_of article_info = Ok (PList l) ->
  exists title,
    title_of article_info = Ok title /\
    (forall r, parse_article py_repr article = Ok r ->
               r = record title (spec_authors py_repr l) (spec_affiliations l)) /\
    (Forall (fun a => author_wf a = true) l ->
     parse_article py_repr article =
     Ok (record title (spec_authors py_repr l) (spec_affiliations l))).
Proof.
  intros Hai Hal.
  destruct (author_list_of_ok_title _ Hal) as [title Ht].
  exists title. split; [exact Ht|].
  rewrite parse_article_unfold, Hai. simpl. rewrite Ht. simpl.
  unfold finish_article. rewrite Hal. cbn [res_bind].
  split.
  - intros r H.
    destruct (extract_authors py_repr (PList l)) as [au|] eqn:Hau;
      cbn [res_bind] in H; [|discriminate].
    destruct (extract_affiliations (PList l)) as [af|] eqn:Haf;
      cbn [res_bind] in H; [|discriminate].
    apply extract_authors_partial in Hau.
    apply extract_affiliations_partial in Haf.
    injection H as <-. now subst.
  - intros Hwf.
    rewrite (extract_affiliations_total Hwf).
    assert (Hd : Forall (fun a => is_dict a = true) l).
    { eapply Forall_impl; [|exact Hwf]. apply author_wf_is_dict. }
    cbn [extract_authors]. rewrite (authors_loop_total Hd). reflexivity.
Qed.

(** An entry whose given name and family name are both empty or missing
    has an empty display name. *)
Lemma display_name_empty_names (a : pyval) :
  name_field a (lit "ForeName") = PStr [] ->
  name_field a (lit "LastName") = PStr [] ->
  display_name py_repr a = [].
Proof.
  intros Hf Hl. unfold display_name, raw_name. rewrite Hf, Hl. reflexivity.
Qed.

(** C2: an article whose author-list is not in list form (a single author
    object, any other non-list value, or absent, which [.get] turns into the
    empty list) gets a record with [authors == []] and no affiliations,
    whatever the single author object carries. *)
Theorem non_list_author_list_yields_nothing
  (article article_info author_list : pyval) :
  article_info_of article = Ok article_info ->
  author_list_of article_info = Ok author_list ->
  is_list author_list = false \/ author_list = PList [] ->
  exists title,
    title_of article_info = Ok title /\
    parse_article py_repr article = Ok (record title [] []).
Proof.
  intros Hai Hal Hshape.
  destruct (author_list_of_ok_title _ Hal) as [title Ht].
  exists title. split; [exact Ht|].
  rewrite parse_article_unfold, Hai. simpl. rewrite Ht. simpl.
  unfold finish_article. rewrite Hal. cbn [res_bind].
  destruct Hshape as [Hnl| ->]; [|reflexivity].
  destruct author_list; try discriminate; reflexivity.
Qed.

(** When a key of the title path is missing from the dictionary that
    would hold it, the title step returns the string "No Title Found", the
    loop body goes on with it exactly as with a title that was found, every
    record it returns carries it under ["title"], and when citation or
    article-info itself is missing the record is returned outright. *)
Lemma missing_title_placeholder (article : pyval) :
  title_path_absent article = true ->
  exists article_info,
    article_info_of article = Ok article_info /\
    title_of article_info = Ok (PStr (lit "No Title Found")) /\
    parse_article py_repr article =
      finish_article py_repr article_info (PStr (lit "No Title Found")) /\
    (forall r, parse_article py_repr article = Ok r ->
               py_getitem r (lit "title") = Ok (PStr (lit "No Title Found"))) /\
    (article_info = PDict [] ->
     parse_article py_repr article =
     Ok (record (PStr (lit "No Title Found")) [] [])).
Proof.
  change (PStr (lit "No Title Found")) with no_title.
  intros Habs.
  assert (Hex : exists info,
             article_info_of article = Ok (PDict info) /\
             assoc (lit "ArticleTitle") info = None).
  { unfold title_path_absent in Habs. unfold article_info_of.
    destruct article as [| | | | | |a]; try discriminate. simpl.
    destruct (assoc (lit "MedlineCitation") a) as [mc|]; simpl.
    - destruct mc as [| | | | | |citation]; try discriminate. simpl.
      destruct (assoc (lit "Article") citation) as [ai|]; simpl.
      + destruct ai as [| | | | | |info]; try discriminate.
        destruct (assoc (lit "ArticleTitle") info) eqn:Ht; try discriminate.
        now exists info.
      + now exists [].
    - now exists []. }
  destruct Hex as [info [Hai Ht]].
  assert (Htitle : title_of (PDict info) = Ok no_title).
  { unfold title_of. simpl. now rewrite Ht. }
  assert (Hparse : parse_article py_repr article =
                   finish_article py_repr (PDict info) no_title).
  { rewrite parse_article_unfold, Hai. cbn [res_bind]. now rewrite Htitle. }
  exists (PDict info). repeat split; auto.
  - intros r Hr. rewrite Hparse in Hr.
    apply finish_article_record in Hr as [au [af ->]]. reflexivity.
  - intros Hinfo. rewrite Hparse, Hinfo. reflexivity.
Qed.

(** For a list-form author-list, the authors of the record are the
    display names, trimmed, of the entries in author-list order, the
    entries whose trimmed name is empty left out; the name loop returns
    them whenever every entry is a dictionary, and trimming removes
    whitespace at both ends and nothing else.  A name field is printed as
    the f-string prints it: a field that is [None] prints as the word
    "None". *)
Lemma authors_are_trimmed_display_names
  (article article_info : pyval) (l : list pyval) :
  article_info_of article = Ok article_info ->
  author_list_of article_info = Ok (PList l) ->
  (forall r, parse_article py_repr article = Ok r ->
             py_getitem r (lit "authors") = Ok (PList (spec_authors py_repr l))) /\
  (Forall (fun a => is_dict a = true) l ->
   extract_authors py_repr (PList l) = Ok (spec_authors py_repr l)) /\
  (Forall (fun a => author_wf a = true) l ->
   exists title,
     parse_article py_repr article =
     Ok (record title (spec_authors py_repr l) (spec_affiliations l))) /\
  (forall a, In a l ->
     trimmed (display_name py_repr a) /\
     (exists ws1 ws2,
        raw_name py_repr a = ws1 ++ display_name py_repr a ++ ws2 /\
        forallb is_space ws1 = true /\ forallb is_space ws2 = true) /\
     (name_field a (lit "ForeName") = PStr [] ->
      name_field a (lit "LastName") = PStr [] ->
      display_name py_repr a = []) /\
     (display_name py_repr a = [] -> spec_authors py_repr [a] = []) /\
     (display_name py_repr a <> [] ->
      spec_authors py_repr [a] = [PStr (display_name py_repr a)])).
Proof.
  intros Hai Hal.
  destruct (parse_article_list_form _ Hai Hal) as [title [_ [Hpart Htot]]].
  split; [|split; [|split]].
  - intros r Hr. rewrite (Hpart r Hr). reflexivity.
  - intros Hd. cbn [extract_authors]. now rewrite (authors_loop_total Hd).
  - intros Hwf. exists title. now apply Htot.
  - intros a _. split; [apply py_strip_trimmed|].
    split; [apply py_strip_split|].
    split; [apply display_name_empty_names|].
    unfold spec_authors. simpl.
    split; intros Hn.
    + now rewrite Hn.
    + destruct (display_name py_repr a); [contradiction|reflexivity].
Qed.

(** C5: for a list-form author-list, the affiliations of the record are the
    affiliation values of the entries of each author's list-form
    affiliation-info, concatenated in author order into one flat list
    (nothing removed, nothing grouped); an author whose affiliation-info is
    not a list adds nothing; and the loop body returns this record on
    well-formed author entries. *)
Theorem affiliations_are_pooled
  (article article_info : pyval) (l : list pyval) :
  article_info_of article = Ok article_info ->
  author_list_of article_info = Ok (PList l) ->
  (forall r, parse_article py_repr article = Ok r ->
             py_getitem r (lit "affiliations") = Ok (PList (spec_affiliations l))) /\
  (Forall (fun a => author_wf a = true) l ->
   exists title authors,
     parse_article py_repr article =
     Ok (record title authors (spec_affiliations l))) /\
  (forall l1 l2, l = l1 ++ l2 ->
     spec_affiliations l = spec_affiliations l1 ++ spec_affiliations l2) /\
  (forall d acc,
     In (PDict d) l ->
     (forall infos, assoc (lit "AffiliationInfo") d <> Some (PList infos)) ->
     affiliations_loop [PDict d] acc = Ok acc).
Proof.
  intros Hai Hal.
  destruct (parse_article_list_form _ Hai Hal) as [title [_ [Hpart Htot]]].
  split; [|split; [|split]].
  - intros r Hr. rewrite (Hpart r Hr). reflexivity.
  - intros Hwf. exists title, (spec_authors py_repr l). now apply Htot.
  - intros l1 l2 ->. unfold spec_affiliations. apply flat_map_app.
  - intros d acc _ Hnl. simpl.
    destruct (assoc (lit "AffiliationInfo") d) as [info|]; simpl; [|reflexivity].
    destruct info as [| | | | |infos|]; try reflexivity.
    now destruct (Hnl infos).
Qed.

Lemma parse_article_shape (article r : pyval) :
  parse_article py_repr article = Ok r -> record_ok r.
Proof.
  rewrite parse_article_unfold. intros H.
  destruct (article_info_of article) as [ai|]; simpl in H; [|discriminate].
  destruct (title_of ai) as [title|]; simpl in H; [|discriminate].
  unfold finish_article in H.
  destruct (author_list_of ai) as [al|]; simpl in H; [|discriminate].
  destruct (extract_authors py_repr al) as [au|] eqn:Hau; simpl in H; [|discriminate].
  destruct (extract_affiliations al) as [af|]; simpl in H; [|discriminate].
  injection H as <-. exists title, au, af. split; [reflexivity|].
  destruct al as [| | | | |l|]; simpl in Hau;
    try (injection Hau as <-; constructor).
  change (extract_authors py_repr (PList l) = Ok au) in Hau.
  apply extract_authors_partial in Hau. subst. apply spec_authors_nonempty.
Qed.

Lemma articles_loop_map_res (l : list pyval) :
  forall extracted_data,
    articles_loop py_repr l extracted_data =
    (rs <-? map_res (parse_article py_repr) l ;; Ok (extracted_data ++ rs)).
Proof.
  induction l as [|a l IH]; intros acc; simpl.
  - now rewrite app_nil_r.
  - destruct (parse_article py_repr a) as [r|]; simpl; [|reflexivity].
    rewrite IH. destruct (map_res (parse_article py_repr) l); simpl; [|reflexivity].
    now rewrite <- app_assoc.
Qed.

(** The records of a document, from the items the article loop visits. *)
Lemma extract_records_items (parsed_data out : pyval) :
  extract_records py_repr parsed_data = Ok out ->
  exists article_set articles items rs,
    py_get parsed_data (lit "PubmedArticleSet") (PDict []) = Ok article_set /\
    py_get article_set (lit "PubmedArticle") (PList []) = Ok articles /\
    py_iter articles = Ok items /\
    map_res (parse_article py_repr) items = Ok rs /\
    out = PList rs.
Proof.
  unfold extract_records. intros H.
  destruct (py_get parsed_data _ _) as [aset|] eqn:H1; simpl in H; [|discriminate].
  destruct (py_get aset _ _) as [arts|] eqn:H2; simpl in H; [|discriminate].
  destruct (py_iter arts) as [items|] eqn:H3; simpl in H; [|discriminate].
  rewrite articles_loop_map_res in H.
  destruct (map_res _ items) as [rs|] eqn:H4; simpl in H; [|discriminate].
  injection H as <-. now exists aset, arts, items, rs.
Qed.

(** A list-form article set yields one record per article node, in
    document order, as soon as the loop body returns on each of them. *)
Lemma list_form_one_record_per_article
  (parsed_data article_set : pyval) (l : list pyval) :
  py_get parsed_data (lit "PubmedArticleSet") (PDict []) = Ok article_set ->
  py_get article_set (lit "PubmedArticle") (PList []) = Ok (PList l) ->
  Forall (fun a => exists r, parse_article py_repr a = Ok r) l ->
  exists rs,
    extract_records py_repr parsed_data = Ok (PList rs) /\
    List.length rs = List.length l /\
    Forall2 (fun a r => parse_article py_repr a = Ok r) l rs.
Proof.
  intros H1 H2 Hall.
  destruct (map_res_total _ Hall) as [rs Hrs].
  exists rs. split; [|split].
  - unfold extract_records. rewrite H1. simpl. rewrite H2. simpl.
    rewrite articles_loop_map_res, Hrs. reflexivity.
  - now apply map_res_length in Hrs.
  - now apply map_res_Forall2.
Qed.

(** A single article node is a dictionary: the loop visits its keys, and
    the first key, a string, has no [.get]. *)
Lemma single_article_dict_raises
  (parsed_data article_set : pyval) (k : pystr) (v : pyval)
  (d : list (pystr * pyval)) :
  py_get parsed_data (lit "PubmedArticleSet") (PDict []) = Ok article_set ->
  py_get article_set (lit "PubmedArticle") (PList []) = Ok (PDict ((k, v) :: d)) ->
  extract_records py_repr parsed_data = Raise AttributeError.
Proof.
  intros H1 H2. unfold extract_records. rewrite H1. simpl. rewrite H2. reflexivity.
Qed.

End Extractor.

(** ** Search, Detail Fetcher and the script *)

Section Pipeline.

Variable py_repr : pyval -> pystr.
Variable xmltodict_parse : pyval -> res pyval.
Variable requests_get : pystr -> list (pystr * pyval) -> res response.

(** [fetch_pubmed_papers], one case per outcome of the request. *)
Lemma fetch_pubmed_papers_cases (query : pyval) (t : list event) :
  fetch_pubmed_papers requests_get query t =
  let request := EvHttpGet esearch_url (search_params query) in
  match requests_get esearch_url (search_params query) with
  | Raise e => (Raise e, t ++ [request])
  | Ok resp =>
      if Z.eqb (status_code resp) 200 then
        (data <-? json resp ;;
         esearchresult <-? py_get data (lit "esearchresult") (PDict []) ;;
         py_get esearchresult (lit "idlist") (PList []),
         t ++ [request])
      else
        (Ok (PList []),
         t ++ [request; EvPrint [PStr search_error_banner; PInt (status_code resp)]])
  end.
Proof.
  unfold fetch_pubmed_papers, http_get, bind, emit, lift, print, ret. cbv zeta.
  destruct (requests_get esearch_url (search_params query)) as [resp|e];
    [|reflexivity].
  destruct (Z.eqb (status_code resp) 200).
  - destruct (json resp); reflexivity.
  - unfold emit. now rewrite <- app_assoc.
Qed.

(** The search extends the trace it is given and does not read it. *)
Lemma fetch_pubmed_papers_frame (query : pyval) (t : list event) :
  fetch_pubmed_papers requests_get query t =
  (fst (fetch_pubmed_papers requests_get query []),
   t ++ snd (fetch_pubmed_papers requests_get query [])).
Proof.
  rewrite !fetch_pubmed_papers_cases. cbv zeta.
  destruct (requests_get esearch_url (search_params query)) as [resp|e];
    [|reflexivity].
  destruct (Z.eqb (status_code resp) 200); reflexivity.
Qed.

Lemma detail_fetch_calls_app (t1 t2 : list event) :
  detail_fetch_calls (t1 ++ t2) = detail_fetch_calls t1 + detail_fetch_calls t2.
Proof. unfold detail_fetch_calls. now rewrite filter_app, length_app. Qed.

Lemma network_calls_app (t1 t2 : list event) :
  network_calls (t1 ++ t2) = network_calls t1 + network_calls t2.
Proof. unfold network_calls. now rewrite filter_app, length_app. Qed.

Lemma detail_fetch_calls_print (args : list pyval) :
  detail_fetch_calls [EvPrint args] = 0.
Proof. reflexivity. Qed.

Lemma search_is_not_detail_fetch (params : list (pystr * pyval)) :
  is_detail_fetch (EvHttpGet esearch_url params) = false.
Proof. reflexivity. Qed.

Lemma fetch_pubmed_papers_no_detail_fetch (query : pyval) :
  detail_fetch_calls (snd (fetch_pubmed_papers requests_get query [])) = 0.
Proof.
  rewrite fetch_pubmed_papers_cases. cbv zeta.
  destruct (requests_get esearch_url (search_params query)) as [resp|e];
    [|reflexivity].
  destruct (Z.eqb (status_code resp) 200); reflexivity.
Qed.

(** C6: given the empty identifier sequence, the Detail Fetcher prints the
    "no identifiers" notice, returns [None] and adds no network call to the
    trace; and when Search returns the empty sequence the script ends
    normally without any request to the fetch endpoint. *)
Theorem empty_ids_no_detail_fetch (query : pystr) (t : list event) :
  fst (fetch_pubmed_papers requests_get (PStr query) []) = Ok (PList []) ->
  (fetch_paper_details requests_get (PList []) t =
     (Ok PNone, t ++ [EvPrint [PStr no_ids_notice]]) /\
   network_calls (snd (fetch_paper_details requests_get (PList []) t)) =
     network_calls t) /\
  (fst (main py_repr xmltodict_parse requests_get query t) = Ok tt /\
   detail_fetch_calls (snd (main py_repr xmltodict_parse requests_get query t)) =
     detail_fetch_calls t).
Proof.
  intros Hsearch. split.
  - split; [reflexivity|].
    cbn [fetch_paper_details py_truthy nonempty negb bind print emit ret snd].
    rewrite network_calls_app.
    change (network_calls [EvPrint [PStr no_ids_notice]]) with 0. lia.
  - unfold main, bind, print, emit, ret, lift.
    rewrite fetch_pubmed_papers_frame, Hsearch.
    cbn [py_truthy nonempty fst snd].
    split; [reflexivity|].
    rewrite !detail_fetch_calls_app, fetch_pubmed_papers_no_detail_fetch.
    rewrite !detail_fetch_calls_print. lia.
Qed.

(** C7: when the search request is answered with a status other than 200,
    Search prints its diagnostic with the status and returns the empty
    list: no exception, no other value. *)
Theorem search_failure_gives_empty
  (query : pyval) (resp : response) (t : list event) :
  requests_get esearch_url (search_params query) = Ok resp ->
  status_code resp <> 200%Z ->
  fetch_pubmed_papers requests_get query t =
  (Ok (PList []),
   t ++ [ EvHttpGet esearch_url (search_params query);
          EvPrint [PStr search_error_banner; PInt (status_code resp)] ]).
Proof.
  intros Hresp Hstatus. rewrite fetch_pubmed_papers_cases, Hresp. cbv zeta.
  apply Z.eqb_neq in Hstatus. now rewrite Hstatus.
Qed.

(** C9: whatever the Extractor returns is a list of dictionaries with
    exactly the keys title, authors and affiliations, the last two bound to
    lists, and every author name a non-empty string. *)
Theorem records_have_three_fields
  (xml_data out : pyval) (t : list event) :
  fst (parse_pubmed_xml py_repr xmltodict_parse xml_data t) = Ok out ->
  exists rs, out = PList rs /\ Forall record_ok rs.
Proof.
  unfold parse_pubmed_xml, bind, lift, print, emit.
  destruct (xmltodict_parse xml_data) as [parsed|]; simpl; [|discriminate].
  intros H. apply extract_records_items in H
    as (aset & arts & items & rs & _ & _ & _ & Hrs & ->).
  exists rs. split; [reflexivity|].
  apply map_res_Forall2 in Hrs.
  induction Hrs as [|a r l rs Har _ IH]; constructor; auto.
  now apply parse_article_shape in Har.
Qed.

End Pipeline.

(** C10: a response with status 200 whose body is an object without
    ["esearchresult"], or with an ["esearchresult"] object without
    ["idlist"], makes Search return the empty list after the request alone;
    value and trace are those of a response whose id list is empty. *)
Theorem missing_keys_look_like_empty_result
  (net net_empty : pystr -> list (pystr * pyval) -> res response)
  (query : pyval) (resp resp_empty : response)
  (d : list (pystr * pyval)) (t : list event) :
  net esearch_url (search_params query) = Ok resp ->
  status_code resp = 200%Z ->
  json resp = Ok (PDict d) ->
  (assoc (lit "esearchresult") d = None \/
   exists er, assoc (lit "esearchresult") d = Some (PDict er) /\
              assoc (lit "idlist") er = None) ->
  net_empty esearch_url (search_params query) = Ok resp_empty ->
  status_code resp_empty = 200%Z ->
  json resp_empty =
    Ok (PDict [(lit "esearchresult", PDict [(lit "idlist", PList [])])]) ->
  fetch_pubmed_papers net query t =
    (Ok (PList []), t ++ [EvHttpGet esearch_url (search_params query)]) /\
  fetch_pubmed_papers net query t = fetch_pubmed_papers net_empty query t.
Proof.
  intros Hresp Hst Hjson Hkeys Hresp' Hst' Hjson'.
  assert (H1 : fetch_pubmed_papers net query t =
               (Ok (PList []), t ++ [EvHttpGet esearch_url (search_params query)])).
  { rewrite fetch_pubmed_papers_cases, Hresp. cbv zeta.
    rewrite Hst, Hjson. simpl.
    destruct Hkeys as [Hnone | [er [Her Hid]]].
    - now rewrite Hnone.
    - rewrite Her. simpl. now rewrite Hid. }
  split; [exact H1|].
  rewrite H1, fetch_pubmed_papers_cases, Hresp'. cbv zeta.
  rewrite Hst', Hjson'. reflexivity.
Qed.

(** ** The article set of a single article *)

(** C1: when the article set holds a single article node, a dictionary
    and not a list, the article loop runs over the keys of that dictionary
    and raises [AttributeError] at the first one, after the debug print:
    the node is not treated as a list of one and no record is returned. *)
Theorem single_article_node_raises
  (py_repr : pyval -> pystr) (xml_data : pyval) (t : list event)
  (k : pystr) (v : pyval) (d : list (pystr * pyval)) :
  let article := PDict ((k, v) :: d) in
  py_iter article = Ok (PStr k :: map (fun kv => PStr (fst kv)) d) /\
  parse_article py_repr (PStr k) = Raise AttributeError /\
  parse_pubmed_xml py_repr (parse_to (document article)) xml_data t =
  (Raise AttributeError, t ++ [EvPrint [PStr debug_banner; document article]]).
Proof.
  cbv zeta. split; [reflexivity|]. split; [reflexivity|].
  unfold parse_pubmed_xml, parse_to, bind, lift, print, emit.
  now rewrite (@single_article_dict_raises py_repr
                 (document (PDict ((k, v) :: d)))
                 (PDict [(lit "PubmedArticle", PDict ((k, v) :: d))])
                 k v d eq_refl eq_refl).
Qed.

(** The document of a fetch that found one article. *)
Example single_article_doc_raises :
  extract_records sample_repr single_article_doc = Raise AttributeError.
Proof. reflexivity. Qed.

(** The same article as the only element of a list yields its record. *)
Example article_in_a_list_of_one :
  extract_records sample_repr (document (PList [article_a])) =
  Ok (PList [ record (str "Study A")
                [str "Jane Doe"; str "John Roe"]
                [str "Lab X"; str "Lab Y"] ]).
Proof. reflexivity. Qed.

(** The two-article document of the end-to-end example. *)
Example two_articles_two_records :
  extract_records sample_repr two_article_doc =
  Ok (PList [ record (str "Study A")
                [str "Jane Doe"; str "John Roe"]
                [str "Lab X"; str "Lab Y"];
              record no_title [] [] ]).
Proof. reflexivity. Qed.

(** ** The statements at sample inputs *)

Lemma non_list_author_list_witness :
  article_info_of article_single_author = Ok info_single_author /\
  author_list_of info_single_author = Ok jane_doe /\
  exists title,
    title_of info_single_author = Ok title /\
    parse_article sample_repr article_single_author = Ok (record title [] []).
Proof.
  split; [reflexivity|]. split; [reflexivity|].
  apply (@non_list_author_list_yields_nothing sample_repr
           article_single_author info_single_author jane_doe);
    [reflexivity | reflexivity | left; reflexivity].
Defined.

Lemma missing_title_witness :
  title_path_absent article_untitled = true /\
  (forall r, parse_article sample_repr article_untitled = Ok r ->
             py_getitem r (lit "title") = Ok (PStr (lit "No Title Found"))).
Proof.
  split; [reflexivity|].
  destruct (@missing_title_placeholder sample_repr article_untitled eq_refl)
    as [info [_ [_ [_ [Hfield _]]]]].
  exact Hfield.
Defined.

Lemma authors_witness :
  article_info_of article_a = Ok info_a /\
  author_list_of info_a = Ok (PList authors_a) /\
  extract_authors sample_repr (PList authors_a) =
    Ok [str "Jane Doe"; str "John Roe"].
Proof.
  split; [reflexivity|]. split; [reflexivity|].
  destruct (@authors_are_trimmed_display_names sample_repr
              article_a info_a authors_a eq_refl eq_refl) as [_ [Htotal _]].
  rewrite Htotal; [reflexivity | repeat constructor].
Defined.

Lemma affiliations_witness :
  article_info_of article_a = Ok info_a /\
  author_list_of info_a = Ok (PList authors_a) /\
  py_getitem (record (str "Study A") [str "Jane Doe"; str "John Roe"]
                [str "Lab X"; str "Lab Y"]) (lit "affiliations") =
    Ok (PList (spec_affiliations authors_a)).
Proof.
  split; [reflexivity|]. split; [reflexivity|].
  destruct (@affiliations_are_pooled sample_repr
              article_a info_a authors_a eq_refl eq_refl) as [Hrecord _].
  apply Hrecord. reflexivity.
Defined.

Lemma empty_ids_witness :
  fst (fetch_pubmed_papers net_no_match (str "cancer genomics") []) = Ok (PList []) /\
  fst (main sample_repr (parse_to two_article_doc) net_no_match
         (lit "cancer genomics") []) = Ok tt /\
  detail_fetch_calls
    (snd (main sample_repr (parse_to two_article_doc) net_no_match
            (lit "cancer genomics") [])) = 0.
Proof.
  split; [reflexivity|].
  destruct (@empty_ids_no_detail_fetch sample_repr (parse_to two_article_doc)
              net_no_match (lit "cancer genomics") [] eq_refl) as [_ Hmain].
  exact Hmain.
Defined.

Lemma search_failure_witness :
  fetch_pubmed_papers net_unavailable (str "cancer genomics") [] =
  (Ok (PList []),
   [ EvHttpGet esearch_url (search_params (str "cancer genomics"));
     EvPrint [PStr search_error_banner; PInt 503] ]).
Proof.
  apply (@search_failure_gives_empty net_unavailable (str "cancer genomics")
           (mkResponse 503 (Raise ExternalError) (lit "Service Unavailable")) []).
  - reflexivity.
  - simpl. lia.
Defined.

Lemma records_shape_witness :
  exists rs,
    PList [ record (str "Study A")
              [str "Jane Doe"; str "John Roe"] [str "Lab X"; str "Lab Y"];
            record no_title [] [] ] = PList rs /\
    Forall record_ok rs.
Proof.
  apply (@records_have_three_fields sample_repr (parse_to two_article_doc)
           (str "<PubmedArticleSet/>") _ []).
  reflexivity.
Defined.

Lemma missing_keys_witness :
  fetch_pubmed_papers net_no_keys (str "cancer genomics") [] =
    (Ok (PList []),
     [EvHttpGet esearch_url (search_params (str "cancer genomics"))]) /\
  fetch_pubmed_papers net_no_keys (str "cancer genomics") [] =
    fetch_pubmed_papers net_empty_idlist (str "cancer genomics") [].
Proof.
  apply (@missing_keys_look_like_empty_result net_no_keys net_empty_idlist
           (str "cancer genomics")
           (mkResponse 200
              (Ok (PDict [(lit "header", PDict [(lit "type", str "esearch")])])) [])
           (mkResponse 200
              (Ok (PDict [(lit "esearchresult", PDict [(lit "idlist", PList [])])])) [])
           [(lit "header", PDict [(lit "type", str "esearch")])] []);
    try reflexivity.
  left. reflexivity.
Defined.

(** * Further properties *)

(** ** Computations that only append to the trace *)

Lemma framed_ret {A} (a : A) : framed (ret a).
Proof. intros t. unfold ret, run_result, run_events. simpl. now rewrite app_nil_r. Qed.

Lemma framed_lift {A} (r : res A) : framed (lift r).
Proof. intros t. unfold lift, run_result, run_events. simpl. now rewrite app_nil_r. Qed.

Lemma framed_emit (e : event) : framed (emit e).
Proof. intros t. reflexivity. Qed.

Lemma framed_print (args : list pyval) : framed (print args).
Proof. apply framed_emit. Qed.

Lemma framed_bind {A B} (m : M A) (k : A -> M B) :
  framed m -> (forall a, framed (k a)) -> framed (bind m k).
Proof.
  intros Hm Hk t. unfold run_result, run_events, bind.
  rewrite (Hm t). unfold run_result, run_events.
  destruct (m []) as [[a|e] t0]; simpl.
  - rewrite (Hk a (t ++ t0)), (Hk a t0). simpl. now rewrite app_assoc.
  - reflexivity.
Qed.

(** Result and events of a sequence, from those of its parts. *)
Lemma run_bind {A B} (m : M A) (k : A -> M B) :
  (forall a, framed (k a)) ->
  run_result (bind m k) =
    match run_result m with
    | Ok a => run_result (k a)
    | Raise e => Raise e
    end /\
  run_events (bind m k) =
    run_events m ++
    match run_result m with
    | Ok a => run_events (k a)
    | Raise _ => []
    end.
Proof.
  intros Hk. unfold run_result, run_events, bind.
  destruct (m []) as [[a|e] t0]; simpl.
  - rewrite (Hk a t0). simpl. split; reflexivity.
  - now rewrite app_nil_r.
Qed.

Ltac frame_step :=
  match goal with
  | |- forall _, _ => intro
  | |- framed (ret _) => apply framed_ret
  | |- framed (lift _) => apply framed_lift
  | |- framed (print _) => apply framed_print
  | |- framed (emit _) => apply framed_emit
  | |- framed (bind _ _) => apply framed_bind
  | |- framed (if ?c then _ else _) => destruct c
  | |- _ => progress cbv beta zeta
  end.

Ltac frame := repeat frame_step.

Lemma json_dumps_app (t1 t2 : list event) :
  json_dumps (t1 ++ t2) = json_dumps t1 ++ json_dumps t2.
Proof. apply flat_map_app. Qed.

Lemma requests_app (t1 t2 : list event) :
  requests (t1 ++ t2) = requests t1 ++ requests t2.
Proof. apply flat_map_app. Qed.

Lemma prints_no_dump (evs : list event) :
  forallb is_print evs = true -> json_dumps evs = [].
Proof.
  induction evs as [|e evs IH]; simpl; [reflexivity|].
  intros H. apply andb_true_iff in H as [He Hevs].
  destruct e; try discriminate. simpl. auto.
Qed.

Lemma prints_no_request (evs : list event) :
  forallb is_print evs = true -> requests evs = [].
Proof.
  induction evs as [|e evs IH]; simpl; [reflexivity|].
  intros H. apply andb_true_iff in H as [He Hevs].
  destruct e; try discriminate. simpl. auto.
Qed.

(** ** Joining strings *)

Lemma join_strs_strings (sep : pystr) (ss : list pystr) :
  join_strs sep (map PStr ss) = Ok (intercalate sep ss).
Proof.
  induction ss as [|s ss IH]; [reflexivity|].
  destruct ss as [|s' ss]; [reflexivity|].
  change (join_strs sep (map PStr (s :: s' :: ss)))
    with (r <-? join_strs sep (map PStr (s' :: ss)) ;; Ok (s ++ sep ++ r)).
  rewrite IH. reflexivity.
Qed.

Lemma join_strs_not_string (sep : pystr) (items : list pyval) :
  forallb is_str items = false -> join_strs sep items = Raise TypeError.
Proof.
  induction items as [|x items IH]; [discriminate|].
  intros H. destruct x; try reflexivity.
  simpl in H. destruct items as [|y items]; [discriminate|].
  change (join_strs sep (PStr s :: y :: items))
    with (r <-? join_strs sep (y :: items) ;; Ok (s ++ sep ++ r)).
  now rewrite (IH H).
Qed.

Lemma forallb_is_str_map (ss : list pystr) : forallb is_str (map PStr ss) = true.
Proof. induction ss; simpl; auto. Qed.

Lemma all_strings_map (l : list pyval) :
  forallb is_str l = true -> exists ss, l = map PStr ss.
Proof.
  induction l as [|x l IH]; intros H.
  - now exists [].
  - simpl in H. apply andb_true_iff in H as [Hx Hl].
    destruct x; try discriminate. destruct (IH Hl) as [ss ->].
    now exists (s :: ss).
Qed.

(** ** Search *)

Section Search.

Variable requests_get : pystr -> list (pystr * pyval) -> res response.

Lemma framed_search (query : pyval) :
  framed (fetch_pubmed_papers requests_get query).
Proof. unfold fetch_pubmed_papers, http_get. frame. Qed.

(** X1: on status 200 with a body holding an id list, Search returns that
    list as it is, whatever its length and contents, after the request
    alone. *)
Theorem search_returns_idlist_unchanged
  (query ids : pyval) (resp : response)
  (d er : list (pystr * pyval)) (t : list event) :
  requests_get esearch_url (search_params query) = Ok resp ->
  status_code resp = 200%Z ->
  json resp = Ok (PDict d) ->
  assoc (lit "esearchresult") d = Some (PDict er) ->
  assoc (lit "idlist") er = Some ids ->
  fetch_pubmed_papers requests_get query t =
  (Ok ids, t ++ [EvHttpGet esearch_url (search_params query)]).
Proof.
  intros Hresp Hst Hjson Her Hids.
  rewrite fetch_pubmed_papers_cases, Hresp. cbv zeta. rewrite Hst, Hjson. simpl.
  rewrite Her. simpl. now rewrite Hids.
Qed.

(** X2: an exception of [requests.get], or of [response.json()] on a
    response with status 200, is not caught: Search raises it, after the
    request and without any notice. *)
Theorem search_exceptions_propagate
  (query : pyval) (e : exn) (t : list event) :
  requests_get esearch_url (search_params query) = Raise e \/
  (exists resp,
     requests_get esearch_url (search_params query) = Ok resp /\
     status_code resp = 200%Z /\ json resp = Raise e) ->
  fetch_pubmed_papers requests_get query t =
  (Raise e, t ++ [EvHttpGet esearch_url (search_params query)]).
Proof.
  intros [Hraise | [resp [Hresp [Hst Hjson]]]]; rewrite fetch_pubmed_papers_cases.
  - now rewrite Hraise.
  - rewrite Hresp. cbv zeta. now rewrite Hst, Hjson.
Qed.

(** X3: on status 200, a body that is not an object, or whose
    ["esearchresult"] is present but not an object, makes Search raise
    [AttributeError]. *)
Theorem search_non_object_body_raises
  (query body : pyval) (resp : response) (t : list event) :
  requests_get esearch_url (search_params query) = Ok resp ->
  status_code resp = 200%Z ->
  json resp = Ok body ->
  is_dict body = false \/
  (exists d v, body = PDict d /\
               assoc (lit "esearchresult") d = Some v /\ is_dict v = false) ->
  fetch_pubmed_papers requests_get query t =
  (Raise AttributeError, t ++ [EvHttpGet esearch_url (search_params query)]).
Proof.
  intros Hresp Hst Hjson Hshape.
  rewrite fetch_pubmed_papers_cases, Hresp. cbv zeta. rewrite Hst, Hjson. simpl.
  destruct Hshape as [Hnd | [d [v [-> [Hv Hnd]]]]].
  - destruct body; try reflexivity; discriminate.
  - simpl. rewrite Hv. simpl. destruct v; try reflexivity; discriminate.
Qed.

(** X4: whatever the network answers, Search issues exactly one request,
    to the search endpoint, with the query as term, JSON mode and a cap of
    10, and writes no file. *)
Theorem search_issues_one_request (query : pyval) (t : list event) :
  requests (snd (fetch_pubmed_papers requests_get query t)) =
    requests t ++
    [(esearch_url,
      [ (lit "db", PStr (lit "pubmed")); (lit "term", query);
        (lit "retmode", PStr (lit "json")); (lit "retmax", PInt 10) ])] /\
  json_dumps (snd (fetch_pubmed_papers requests_get query t)) = json_dumps t.
Proof.
  rewrite fetch_pubmed_papers_cases. cbv zeta.
  destruct (requests_get esearch_url (search_params query)) as [resp|e].
  - destruct (Z.eqb (status_code resp) 200); simpl;
      rewrite requests_app, json_dumps_app; simpl;
      now rewrite app_nil_r.
  - simpl. rewrite requests_app, json_dumps_app. simpl. now rewrite app_nil_r.
Qed.

(** ** Detail Fetcher *)

Lemma framed_details (paper_ids : pyval) :
  framed (fetch_paper_details requests_get paper_ids).
Proof. unfold fetch_paper_details, http_get. frame. Qed.

Lemma details_cases (paper_ids : pyval) (t : list event) :
  py_truthy paper_ids = true ->
  fetch_paper_details requests_get paper_ids t =
  match py_join (lit ",") paper_ids with
  | Raise e => (Raise e, t)
  | Ok ids =>
      let request := EvHttpGet efetch_url (details_params ids) in
      match requests_get efetch_url (details_params ids) with
      | Raise e => (Raise e, t ++ [request])
      | Ok resp =>
          if Z.eqb (status_code resp) 200 then
            (Ok (PStr (text resp)), t ++ [request])
          else
            (Ok PNone,
             t ++ [request;
                   EvPrint [PStr details_error_banner; PInt (status_code resp)]])
      end
  end.
Proof.
  intros Htrue.
  unfold fetch_paper_details, http_get, bind, emit, lift, print, ret.
  rewrite Htrue. cbn [negb].
  destruct (py_join (lit ",") paper_ids) as [ids|e]; [|reflexivity].
  cbv zeta.
  destruct (requests_get efetch_url (details_params ids)) as [resp|e];
    [|reflexivity].
  destruct (Z.eqb (status_code resp) 200); [reflexivity|].
  unfold emit. now rewrite <- app_assoc.
Qed.

Lemma truthy_strings (ss : list pystr) :
  ss <> [] -> py_truthy (PList (map PStr ss)) = true.
Proof. destruct ss; [contradiction|reflexivity]. Qed.

(** X5: given a non-empty list of string identifiers and a response with
    status 200, the Detail Fetcher issues one request whose [id] parameter
    is the identifiers joined by commas, in order, and returns the response
    text. *)
Theorem details_success
  (ss : list pystr) (resp : response) (t : list event) :
  ss <> [] ->
  requests_get efetch_url (details_params (intercalate (lit ",") ss)) = Ok resp ->
  status_code resp = 200%Z ->
  fetch_paper_details requests_get (PList (map PStr ss)) t =
  (Ok (PStr (text resp)),
   t ++ [EvHttpGet efetch_url
           [ (lit "db", PStr (lit "pubmed"));
             (lit "id", PStr (intercalate (lit ",") ss));
             (lit "retmode", PStr (lit "xml")) ]]).
Proof.
  intros Hne Hresp Hst.
  rewrite details_cases by now apply truthy_strings.
  cbn [py_join py_iter res_bind].
  rewrite join_strs_strings. cbv zeta. rewrite Hresp, Hst. reflexivity.
Qed.

(** X6: given string identifiers and a response with another status, the
    Detail Fetcher returns [None] after the request and a notice with the
    status; the response text is dropped. *)
Theorem details_failure_gives_none
  (ss : list pystr) (resp : response) (t : list event) :
  ss <> [] ->
  requests_get efetch_url (details_params (intercalate (lit ",") ss)) = Ok resp ->
  status_code resp <> 200%Z ->
  fetch_paper_details requests_get (PList (map PStr ss)) t =
  (Ok PNone,
   t ++ [ EvHttpGet efetch_url (details_params (intercalate (lit ",") ss));
          EvPrint [PStr details_error_banner; PInt (status_code resp)] ]).
Proof.
  intros Hne Hresp Hst.
  rewrite details_cases by now apply truthy_strings.
  cbn [py_join py_iter res_bind].
  rewrite join_strs_strings. cbv zeta. rewrite Hresp.
  apply Z.eqb_neq in Hst. now rewrite Hst.
Qed.

(** X7: an identifier list holding anything but strings makes the Detail
    Fetcher raise [TypeError] while it builds the parameters: the trace is
    unchanged, no request is made. *)
Theorem details_non_string_id_raises (l : list pyval) (t : list event) :
  forallb is_str l = false ->
  fetch_paper_details requests_get (PList l) t = (Raise TypeError, t).
Proof.
  intros Hns.
  rewrite details_cases by (destruct l; [discriminate|reflexivity]).
  cbn [py_join py_iter res_bind].
  now rewrite (join_strs_not_string _ _ Hns).
Qed.

End Search.

(** ** Extractor: the article set *)

Lemma map_res_first_failure {A B} (f : A -> res B)
      (pre post : list A) (bad : A) (e : exn) :
  Forall (fun x => exists y, f x = Ok y) pre ->
  f bad = Raise e ->
  map_res f (pre ++ bad :: post) = Raise e.
Proof.
  intros Hpre Hbad. induction Hpre as [|x pre [y Hy] _ IH]; simpl.
  - now rewrite Hbad.
  - now rewrite Hy, IH.
Qed.

Section Articles.

Variable py_repr : pyval -> pystr.
Variable xmltodict_parse : pyval -> res pyval.

Lemma parse_pubmed_xml_run (xml_data parsed_data : pyval) (t : list event) :
  xmltodict_parse xml_data = Ok parsed_data ->
  parse_pubmed_xml py_repr xmltodict_parse xml_data t =
  (extract_records py_repr parsed_data,
   t ++ [EvPrint [PStr debug_banner; parsed_data]]).
Proof.
  intros H. unfold parse_pubmed_xml, bind, lift, print, emit. now rewrite H.
Qed.

Lemma framed_parse (xml_data : pyval) :
  framed (parse_pubmed_xml py_repr xmltodict_parse xml_data).
Proof. unfold parse_pubmed_xml. frame. Qed.

Lemma extract_records_list_form
  (parsed_data article_set : pyval) (l : list pyval) :
  py_get parsed_data (lit "PubmedArticleSet") (PDict []) = Ok article_set ->
  py_get article_set (lit "PubmedArticle") (PList []) = Ok (PList l) ->
  extract_records py_repr parsed_data =
  (rs <-? map_res (parse_article py_repr) l ;; Ok (PList rs)).
Proof.
  intros H1 H2. unfold extract_records. rewrite H1. simpl. rewrite H2. simpl.
  rewrite articles_loop_map_res.
  destruct (map_res (parse_article py_repr) l); reflexivity.
Qed.

(** X8: a document without an article set, or with an article set without
    article nodes, yields the empty list of records after the debug print. *)
Theorem missing_articles_give_no_records
  (xml_data : pyval) (d : list (pystr * pyval)) (t : list event) :
  xmltodict_parse xml_data = Ok (PDict d) ->
  assoc (lit "PubmedArticleSet") d = None \/
  (exists s, assoc (lit "PubmedArticleSet") d = Some (PDict s) /\
             assoc (lit "PubmedArticle") s = None) ->
  parse_pubmed_xml py_repr xmltodict_parse xml_data t =
  (Ok (PList []), t ++ [EvPrint [PStr debug_banner; PDict d]]).
Proof.
  intros Hparse Hkeys. rewrite (parse_pubmed_xml_run _ Hparse). f_equal.
  unfold extract_records. simpl.
  destruct Hkeys as [Hnone | [s [Hset Hart]]].
  - now rewrite Hnone.
  - rewrite Hset. simpl. now rewrite Hart.
Qed.

(** X9: an article set that is present but is not a dictionary, such as
    the [None] of an empty element, makes the Extractor raise
    [AttributeError] instead of returning no records. *)
Theorem empty_article_set_raises
  (xml_data v : pyval) (d : list (pystr * pyval)) (t : list event) :
  xmltodict_parse xml_data = Ok (PDict d) ->
  assoc (lit "PubmedArticleSet") d = Some v ->
  is_dict v = false ->
  parse_pubmed_xml py_repr xmltodict_parse xml_data t =
  (Raise AttributeError, t ++ [EvPrint [PStr debug_banner; PDict d]]).
Proof.
  intros Hparse Hset Hnd. rewrite (parse_pubmed_xml_run _ Hparse). f_equal.
  unfold extract_records. simpl. rewrite Hset. simpl.
  destruct v; try reflexivity; discriminate.
Qed.

(** X10: an article node that is not a list and is not empty never yields
    a record: the Extractor raises [AttributeError] when it is a dictionary
    or a string (the loop visits keys or characters) and [TypeError]
    otherwise (it cannot be iterated). *)
Theorem non_list_article_node_raises
  (parsed_data article_set articles : pyval) :
  py_get parsed_data (lit "PubmedArticleSet") (PDict []) = Ok article_set ->
  py_get article_set (lit "PubmedArticle") (PList []) = Ok articles ->
  is_list articles = false ->
  py_truthy articles = true \/ articles = PNone ->
  extract_records py_repr parsed_data =
  Raise (match articles with
         | PDict _ | PStr _ => AttributeError
         | _ => TypeError
         end).
Proof.
  intros H1 H2 Hnl Hne. unfold extract_records. rewrite H1. simpl. rewrite H2. simpl.
  destruct articles as [| | | |s|l|d]; try reflexivity; try discriminate.
  - destruct s; [destruct Hne; discriminate | reflexivity].
  - destruct d as [|[k v] d]; [destruct Hne; discriminate | reflexivity].
Qed.

(** X11: for a list-form article set, whatever the Extractor returns is a
    list with one record per article node, the record at each position
    being the one the loop body builds from the article at that position;
    and it does return when the loop body returns on every article. *)
Theorem records_follow_document_order
  (parsed_data article_set : pyval) (l : list pyval) :
  py_get parsed_data (lit "PubmedArticleSet") (PDict []) = Ok article_set ->
  py_get article_set (lit "PubmedArticle") (PList []) = Ok (PList l) ->
  (forall out, extract_records py_repr parsed_data = Ok out ->
     exists rs, out = PList rs /\
                Forall2 (fun a r => parse_article py_repr a = Ok r) l rs) /\
  (Forall (fun a => exists r, parse_article py_repr a = Ok r) l ->
   exists rs, extract_records py_repr parsed_data = Ok (PList rs) /\
              List.length rs = List.length l).
Proof.
  intros H1 H2. rewrite (extract_records_list_form _ H1 H2). split.
  - intros out H.
    destruct (map_res (parse_article py_repr) l) as [rs|] eqn:Hrs;
      simpl in H; [|discriminate].
    injection H as <-. exists rs. split; [reflexivity|].
    now apply map_res_Forall2.
  - intros Hall. destruct (map_res_total _ Hall) as [rs Hrs].
    exists rs. rewrite Hrs. split; [reflexivity|].
    now apply map_res_length in Hrs.
Qed.

(** X12: the Extractor returns all records or none: when the loop body
    raises on an article and returned on those before it, the Extractor
    raises that exception, whatever follows, and the records already built
    are lost. *)
Theorem first_failing_article_aborts
  (parsed_data article_set bad : pyval) (pre post : list pyval) (e : exn) :
  py_get parsed_data (lit "PubmedArticleSet") (PDict []) = Ok article_set ->
  py_get article_set (lit "PubmedArticle") (PList []) =
    Ok (PList (pre ++ bad :: post)) ->
  Forall (fun a => exists r, parse_article py_repr a = Ok r) pre ->
  parse_article py_repr bad = Raise e ->
  extract_records py_repr parsed_data = Raise e.
Proof.
  intros H1 H2 Hpre Hbad. rewrite (extract_records_list_form _ H1 H2).
  now rewrite (@map_res_first_failure _ _ (parse_article py_repr) pre post bad e Hpre Hbad).
Qed.

(** ** Extractor: one article *)

Lemma authors_loop_exact (l : list pyval) :
  forall authors,
    authors_loop py_repr l authors =
    if forallb is_dict l then Ok (authors ++ spec_authors py_repr l)
    else Raise AttributeError.
Proof.
  induction l as [|a l IH]; intros authors.
  - simpl. now rewrite app_nil_r.
  - destruct (is_dict a) eqn:Ha.
    + destruct a; try discriminate.
      rewrite authors_loop_dict, IH, spec_authors_cons.
      cbn [forallb is_dict andb].
      destruct (forallb is_dict l); [|reflexivity].
      destruct (nonempty _); simpl; [now rewrite <- app_assoc | reflexivity].
    + rewrite authors_loop_not_dict by assumption.
      cbn [forallb]. now rewrite Ha.
Qed.

Lemma aff_loop_exact (infos : list pyval) :
  forall affiliations,
    aff_loop infos affiliations =
    if existsb aff_entry_raises infos then Raise TypeError
    else Ok (affiliations ++ flat_map spec_entry_affiliation infos).
Proof.
  induction infos as [|aff infos IH]; intros affiliations.
  - simpl. now rewrite app_nil_r.
  - destruct aff as [| | | |s|l|d]; try reflexivity.
    + cbn [aff_loop py_contains res_bind existsb aff_entry_raises flat_map
           spec_entry_affiliation].
      destruct (py_substring (lit "Affiliation") s); [reflexivity|].
      cbn [orb app]. apply IH.
    + cbn [aff_loop py_contains res_bind existsb aff_entry_raises flat_map
           spec_entry_affiliation].
      destruct (existsb (str_equals (lit "Affiliation")) l); [reflexivity|].
      cbn [orb app]. apply IH.
    + cbn [aff_loop py_contains py_getitem res_bind existsb aff_entry_raises
           flat_map spec_entry_affiliation orb].
      destruct (assoc (lit "Affiliation") d) as [a|]; cbn [res_bind].
      * rewrite IH. destruct (existsb aff_entry_raises infos); [reflexivity|].
        now rewrite <- app_assoc.
      * apply IH.
Qed.

Lemma affiliations_loop_exact (l : list pyval) :
  forallb is_dict l = true ->
  forall affiliations,
    affiliations_loop l affiliations =
    if forallb affiliation_info_ok l then Ok (affiliations ++ spec_affiliations l)
    else Raise TypeError.
Proof.
  unfold spec_affiliations.
  induction l as [|author l IH]; intros Hd affiliations.
  - simpl. now rewrite app_nil_r.
  - cbn [forallb] in Hd. apply andb_true_iff in Hd as [Ha Hd].
    destruct author as [| | | | | |d]; try discriminate.
    cbn [affiliations_loop py_get forallb affiliation_info_ok flat_map
         spec_author_affiliations].
    destruct (assoc (lit "AffiliationInfo") d) as [info|]; cbn [res_bind].
    + destruct info as [| | | | |infos|]; try (cbn [andb app]; now apply IH).
      rewrite aff_loop_exact.
      destruct (existsb aff_entry_raises infos); [reflexivity|].
      cbn [res_bind negb andb]. rewrite (IH Hd).
      destruct (forallb affiliation_info_ok l); [|reflexivity].
      now rewrite <- app_assoc.
    + cbn [aff_loop andb app]. now apply IH.
Qed.

(** X13: for a list-form author-list the loop body has three outcomes:
    [AttributeError] when an entry is not a dictionary; otherwise
    [TypeError] when a list-form affiliation-info holds an entry on which
    the membership test or the subscript raises; otherwise the record with
    the display names and the pooled affiliations. *)
Theorem list_form_article_outcome
  (article article_info : pyval) (l : list pyval) :
  article_info_of article = Ok article_info ->
  author_list_of article_info = Ok (PList l) ->
  exists title,
    title_of article_info = Ok title /\
    parse_article py_repr article =
    if forallb is_dict l then
      if forallb affiliation_info_ok l then
        Ok (record title (spec_authors py_repr l) (spec_affiliations l))
      else Raise TypeError
    else Raise AttributeError.
Proof.
  intros Hai Hal.
  destruct (author_list_of_ok_title _ Hal) as [title Ht].
  exists title. split; [exact Ht|].
  rewrite parse_article_unfold, Hai. cbn [res_bind]. rewrite Ht. cbn [res_bind].
  unfold finish_article. rewrite Hal. cbn [res_bind extract_authors].
  rewrite authors_loop_exact.
  destruct (forallb is_dict l) eqn:Hd; [|reflexivity].
  cbn [res_bind app extract_affiliations].
  destruct l as [|a l]; [reflexivity|].
  cbn [nonempty]. rewrite (affiliations_loop_exact _ Hd).
  destruct (forallb affiliation_info_ok (a :: l)); reflexivity.
Qed.

(** X14: a title that is present is passed on as it is, whatever kind of
    value it is (a dictionary for a title with markup, [None] for an empty
    element): the loop body goes on with it and every record it returns
    holds that value under ["title"]. *)
Theorem title_is_passed_through
  (article v : pyval) (info : list (pystr * pyval)) :
  article_info_of article = Ok (PDict info) ->
  assoc (lit "ArticleTitle") info = Some v ->
  parse_article py_repr article = finish_article py_repr (PDict info) v /\
  (forall r, parse_article py_repr article = Ok r ->
             py_getitem r (lit "title") = Ok v).
Proof.
  intros Hai Hv.
  assert (Hparse : parse_article py_repr article =
                   finish_article py_repr (PDict info) v).
  { rewrite parse_article_unfold, Hai. cbn [res_bind].
    unfold title_of. cbn [py_get]. now rewrite Hv. }
  split; [exact Hparse|].
  intros r Hr. rewrite Hparse in Hr.
  apply finish_article_record in Hr as [au [af ->]]. reflexivity.
Qed.

End Articles.

(** ** Printing the records *)

Lemma quiet_ret {A} (a : A) : quiet (ret a).
Proof. split; [apply framed_ret | reflexivity]. Qed.

Lemma quiet_lift {A} (r : res A) : quiet (lift r).
Proof. split; [apply framed_lift | reflexivity]. Qed.

Lemma quiet_print (args : list pyval) : quiet (print args).
Proof. split; [apply framed_print | reflexivity]. Qed.

Lemma quiet_bind {A B} (m : M A) (k : A -> M B) :
  quiet m -> (forall a, quiet (k a)) -> quiet (bind m k).
Proof.
  intros [Hm Pm] Hk. split.
  - apply framed_bind; [exact Hm | intros a; apply Hk].
  - destruct (run_bind m k (fun a => proj1 (Hk a))) as [_ ->].
    rewrite forallb_app, Pm. simpl.
    destruct (run_result m) as [a|e]; [apply Hk | reflexivity].
Qed.

Ltac quiet_step :=
  match goal with
  | |- forall _, _ => intro
  | |- quiet (ret _) => apply quiet_ret
  | |- quiet (lift _) => apply quiet_lift
  | |- quiet (print _) => apply quiet_print
  | |- quiet (bind _ _) => apply quiet_bind
  | |- _ => progress cbv beta zeta
  end.

Lemma strings_of_map (ss : list pystr) : strings_of (map PStr ss) = ss.
Proof. induction ss as [|s ss IH]; simpl; [reflexivity | now f_equal]. Qed.

Lemma join_or_strings (l : list pyval) (dflt : pystr) :
  forallb is_str l = true -> join_or (PList l) dflt = Ok (joined_or l dflt).
Proof.
  intros H. destruct (all_strings_map _ H) as [ss ->].
  unfold join_or, joined_or. cbn [py_truthy].
  destruct (nonempty (map PStr ss)); [|reflexivity].
  cbn [py_join py_iter res_bind]. now rewrite join_strs_strings, strings_of_map.
Qed.

Lemma join_or_not_strings (l : list pyval) (dflt : pystr) :
  forallb is_str l = false -> join_or (PList l) dflt = Raise TypeError.
Proof.
  intros H. unfold join_or. cbn [py_truthy].
  destruct l as [|x l]; [discriminate|]. cbn [nonempty py_join py_iter res_bind].
  now apply join_strs_not_string.
Qed.

Lemma authors_of_record_ok (authors : list pyval) :
  Forall (fun a => exists s, a = PStr s /\ s <> []) authors ->
  forallb is_str authors = true.
Proof.
  induction 1 as [|a l [s [-> _]] _ IH]; simpl; auto.
Qed.

Section Script.

Variable py_repr : pyval -> pystr.
Variable xmltodict_parse : pyval -> res pyval.
Variable requests_get : pystr -> list (pystr * pyval) -> res response.

Lemma quiet_print_paper (index : Z) (paper : pyval) :
  quiet (print_paper py_repr index paper).
Proof. unfold print_paper. repeat quiet_step. Qed.

Lemma quiet_print_papers (papers : list pyval) :
  forall index, quiet (print_papers py_repr papers index).
Proof.
  induction papers as [|paper papers IH]; intros index; simpl.
  - apply quiet_ret.
  - apply quiet_bind; [apply quiet_print_paper | intros _; apply IH].
Qed.

Lemma quiet_parse (xml_data : pyval) :
  quiet (parse_pubmed_xml py_repr xmltodict_parse xml_data).
Proof. unfold parse_pubmed_xml. repeat quiet_step. Qed.

(** [print_paper] on a dictionary of the shape the Extractor builds. *)
Lemma print_paper_record
  (index : Z) (title : pyval) (authors affiliations : list pyval)
  (t : list event) :
  forallb is_str authors = true ->
  print_paper py_repr index (record title authors affiliations) t =
  if forallb is_str affiliations then
    (Ok tt,
     t ++ [ paper_header index; title_line py_repr title;
            authors_line authors; affiliations_line affiliations ])
  else
    (Raise TypeError,
     t ++ [ paper_header index; title_line py_repr title; authors_line authors ]).
Proof.
  intros Hau. unfold print_paper, bind, print, emit, lift.
  change (py_getitem (record title authors affiliations) (lit "title"))
    with (Ok title).
  change (py_getitem (record title authors affiliations) (lit "authors"))
    with (Ok (PList authors)).
  change (py_getitem (record title authors affiliations) (lit "affiliations"))
    with (Ok (PList affiliations)).
  cbv iota beta. rewrite (join_or_strings _ _ Hau). cbv iota beta.
  destruct (forallb is_str affiliations) eqn:Haf.
  - rewrite (join_or_strings _ _ Haf). cbv iota beta.
    unfold paper_header, title_line, authors_line, affiliations_line.
    now rewrite <- !app_assoc.
  - rewrite (join_or_not_strings _ _ Haf). cbv iota beta.
    unfold paper_header, title_line, authors_line.
    now rewrite <- !app_assoc.
Qed.

(** X15: on a record of the Extractor, [print_paper] prints the header,
    the title and the authors (joined by [", "], or "No Authors Found");
    then it prints the affiliations and returns when they are all strings,
    and raises [TypeError] when one of them is not. *)
Theorem print_paper_outcome (index : Z) (r : pyval) (t : list event) :
  record_ok r ->
  exists title authors affiliations,
    r = record title authors affiliations /\
    print_paper py_repr index r t =
    if forallb is_str affiliations then
      (Ok tt,
       t ++ [ paper_header index; title_line py_repr title;
              authors_line authors; affiliations_line affiliations ])
    else
      (Raise TypeError,
       t ++ [ paper_header index; title_line py_repr title; authors_line authors ]).
Proof.
  intros (title & authors & affiliations & -> & Hau).
  exists title, authors, affiliations. split; [reflexivity|].
  apply print_paper_record. now apply authors_of_record_ok.
Qed.

Lemma print_papers_run (rs : list pyval) :
  Forall record_ok rs ->
  forall index t,
    forallb affiliations_are_strings rs = true ->
    print_papers py_repr rs index t = (Ok tt, t ++ papers_lines py_repr rs index).
Proof.
  induction 1 as [|r rs Hr _ IH]; intros index t Hstr.
  - simpl. unfold ret. now rewrite app_nil_r.
  - cbn [forallb] in Hstr. apply andb_true_iff in Hstr as [Hr1 Hrs].
    destruct Hr as (title & authors & affiliations & -> & Hau).
    fold (record title authors affiliations) in *.
    cbn [print_papers papers_lines]. unfold bind.
    rewrite print_paper_record by now apply authors_of_record_ok.
    change (affiliations_are_strings (record title authors affiliations))
      with (forallb is_str affiliations) in Hr1.
    rewrite Hr1. rewrite (IH (index + 1)%Z _ Hrs).
    now rewrite <- app_assoc.
Qed.

Lemma print_papers_raises (rs : list pyval) :
  Forall record_ok rs ->
  forall index t,
    forallb affiliations_are_strings rs = false ->
    fst (print_papers py_repr rs index t) = Raise TypeError.
Proof.
  induction 1 as [|r rs Hr _ IH]; intros index t Hstr; [discriminate|].
  destruct Hr as (title & authors & affiliations & -> & Hau).
  fold (record title authors affiliations) in *.
  cbn [print_papers]. unfold bind.
  rewrite print_paper_record by now apply authors_of_record_ok.
  cbn [forallb] in Hstr.
  change (affiliations_are_strings (record title authors affiliations))
    with (forallb is_str affiliations) in Hstr.
  destruct (forallb is_str affiliations); [|reflexivity].
  apply IH. exact Hstr.
Qed.

Lemma paper_lines_record_ok (index : Z) (r : pyval) :
  record_ok r ->
  exists l2 l3 l4, paper_lines py_repr index r = [paper_header index; l2; l3; l4].
Proof.
  intros (title & authors & affiliations & -> & _).
  now exists (title_line py_repr title), (authors_line authors),
             (affiliations_line affiliations).
Qed.

(** X16: records of the Extractor whose affiliations are strings are all
    printed, four lines each, and numbered from the start index upwards:
    the header of the record at position [k] is line [4 * k] and shows
    [index + k]. *)
Theorem papers_are_numbered_in_order
  (rs : list pyval) (index : Z) (t : list event) :
  Forall record_ok rs ->
  forallb affiliations_are_strings rs = true ->
  exists lines,
    print_papers py_repr rs index t = (Ok tt, t ++ lines) /\
    List.length lines = 4 * List.length rs /\
    (forall k, k < List.length rs ->
       nth_error lines (4 * k) = Some (paper_header (index + Z.of_nat k))).
Proof.
  intros Hok Hstr. exists (papers_lines py_repr rs index).
  split; [now apply print_papers_run|].
  clear Hstr t. revert index.
  induction Hok as [|r rs Hr _ IH]; intros index.
  - split; [reflexivity|]. intros k Hk. inversion Hk.
  - destruct (paper_lines_record_ok index Hr) as (l2 & l3 & l4 & Hl).
    cbn [papers_lines]. rewrite Hl.
    destruct (IH (index + 1)%Z) as [Hlen Hnth]. split.
    + cbn [List.length app]. rewrite Hlen. lia.
    + intros [|k] Hk.
      * cbn. f_equal. f_equal. lia.
      * replace (4 * S k) with (S (S (S (S (4 * k))))) by lia.
        cbn [app nth_error]. rewrite Hnth by (cbn [List.length] in Hk; lia).
        f_equal. f_equal. lia.
Qed.

End Script.

(** ** The script as a whole *)

Section Run.

Variable py_repr : pyval -> pystr.
Variable xmltodict_parse : pyval -> res pyval.
Variable requests_get : pystr -> list (pystr * pyval) -> res response.

Local Abbreviation search := (fetch_pubmed_papers requests_get).
Local Abbreviation details := (fetch_paper_details requests_get).
Local Abbreviation extractor := (parse_pubmed_xml py_repr xmltodict_parse).
Local Abbreviation script := (main py_repr xmltodict_parse requests_get).

(** The run of the script, one case per place where it can end. *)
Lemma main_cases (query : pystr) (t : list event) :
  script query t =
  let t1 := t ++ searching_line query :: run_events (search (PStr query)) in
  match run_result (search (PStr query)) with
  | Raise e => (Raise e, t1)
  | Ok ids =>
      let t2 := t1 ++ [fetched_line ids] in
      if py_truthy ids then
        let t3 := t2 ++ run_events (details ids) in
        match run_result (details ids) with
        | Raise e => (Raise e, t3)
        | Ok xml =>
            let t4 := t3 ++ extracting_line :: run_events (extractor xml) in
            match run_result (extractor xml) with
            | Raise e => (Raise e, t4)
            | Ok parsed =>
                match py_iter parsed with
                | Raise e => (Raise e, t4)
                | Ok papers =>
                    let t5 := t4 ++ run_events (print_papers py_repr papers 1) in
                    match run_result (print_papers py_repr papers 1) with
                    | Raise e => (Raise e, t5)
                    | Ok _ =>
                        (Ok tt,
                         t5 ++ [EvJsonDump output_file parsed;
                                saved_line output_file])
                    end
                end
            end
        end
      else (Ok tt, t2)
  end.
Proof.
  cbv zeta. unfold main, save_to_json.
  unfold bind at 1. unfold print at 1, emit at 1.
  unfold bind at 1. rewrite (framed_search requests_get (PStr query)).
  replace ((t ++ [EvPrint [PStr ([10%N; 128269%N] ++ lit " Searching PubMed for: " ++ query)]])
           ++ run_events (search (PStr query)))
    with (t ++ searching_line query :: run_events (search (PStr query)))
    by (unfold searching_line; now rewrite <- app_assoc).
  destruct (run_result (search (PStr query))) as [ids|e]; [|reflexivity].
  unfold bind at 1. unfold print at 1, emit at 1. fold (fetched_line ids).
  destruct (py_truthy ids); [|reflexivity].
  unfold bind at 1. rewrite (framed_details requests_get ids).
  destruct (run_result (details ids)) as [xml|e]; [|reflexivity].
  unfold bind at 1. unfold print at 1, emit at 1.
  unfold bind at 1.
  rewrite (framed_parse py_repr xmltodict_parse xml).
  replace ((((t ++ searching_line query :: run_events (search (PStr query)))
             ++ [fetched_line ids]) ++ run_events (details ids))
           ++ [EvPrint [PStr ([10%N] ++ lit "Extracting Paper Details...")]])
    with ((((t ++ searching_line query :: run_events (search (PStr query)))
             ++ [fetched_line ids]) ++ run_events (details ids))
           ++ [extracting_line]) by reflexivity.
  rewrite <- (app_assoc _ [extracting_line]). cbn [app].
  destruct (run_result (extractor xml)) as [parsed|e]; [|reflexivity].
  unfold bind at 1. unfold lift at 1.
  destruct (py_iter parsed) as [papers|e]; [|reflexivity].
  unfold bind at 1.
  rewrite (proj1 (quiet_print_papers py_repr papers 1%Z)).
  destruct (run_result (print_papers py_repr papers 1)) as [[]|e]; [|reflexivity].
  unfold bind, print, emit. unfold saved_line.
  now rewrite <- app_assoc.
Qed.

Lemma quiet_no_dump {A} (m : M A) : quiet m -> json_dumps (run_events m) = [].
Proof. intros [_ H]. now apply prints_no_dump. Qed.

Lemma quiet_no_request {A} (m : M A) : quiet m -> requests (run_events m) = [].
Proof. intros [_ H]. now apply prints_no_request. Qed.

Lemma search_events (query : pyval) :
  exists notices,
    run_events (search query) =
      EvHttpGet esearch_url (search_params query) :: notices /\
    forallb is_print notices = true.
Proof.
  unfold run_events. rewrite fetch_pubmed_papers_cases. cbv zeta.
  destruct (requests_get esearch_url (search_params query)) as [resp|e].
  - destruct (Z.eqb (status_code resp) 200).
    + now exists [].
    + now exists [EvPrint [PStr search_error_banner; PInt (status_code resp)]].
  - now exists [].
Qed.

Lemma details_events (paper_ids : pyval) :
  exists notices,
    forallb is_print notices = true /\
    (run_events (details paper_ids) = notices \/
     exists ids,
       run_events (details paper_ids) =
       EvHttpGet efetch_url (details_params ids) :: notices).
Proof.
  unfold run_events. destruct (py_truthy paper_ids) eqn:Htruthy.
  - rewrite (details_cases requests_get _ _ Htruthy).
    destruct (py_join (lit ",") paper_ids) as [ids|e].
    + cbv zeta.
      destruct (requests_get efetch_url (details_params ids)) as [resp|e].
      * destruct (Z.eqb (status_code resp) 200).
        -- exists []. split; [reflexivity|]. right. now exists ids.
        -- exists [EvPrint [PStr details_error_banner; PInt (status_code resp)]].
           split; [reflexivity|]. right. now exists ids.
      * exists []. split; [reflexivity|]. right. now exists ids.
    + exists []. split; [reflexivity|]. now left.
  - unfold fetch_paper_details. rewrite Htruthy.
    exists [EvPrint [PStr no_ids_notice]]. split; [reflexivity|]. now left.
Qed.

Lemma details_events_ok (paper_ids xml : pyval) :
  py_truthy paper_ids = true ->
  run_result (details paper_ids) = Ok xml ->
  exists ids notices,
    run_events (details paper_ids) =
      EvHttpGet efetch_url (details_params ids) :: notices /\
    forallb is_print notices = true.
Proof.
  unfold run_events, run_result. intros Htruthy.
  rewrite (details_cases requests_get _ _ Htruthy).
  destruct (py_join (lit ",") paper_ids) as [ids|e]; [|discriminate].
  cbv zeta.
  destruct (requests_get efetch_url (details_params ids)) as [resp|e];
    [|discriminate].
  destruct (Z.eqb (status_code resp) 200); intros _.
  - now exists ids, [].
  - now exists ids, [EvPrint [PStr details_error_banner; PInt (status_code resp)]].
Qed.

Lemma search_no_dump (query : pyval) :
  json_dumps (run_events (search query)) = [].
Proof.
  destruct (search_events query) as [notices [-> Hn]].
  cbn. now apply prints_no_dump.
Qed.

Lemma search_requests (query : pyval) :
  requests (run_events (search query)) = [(esearch_url, search_params query)].
Proof.
  destruct (search_events query) as [notices [-> Hn]].
  cbn. now rewrite prints_no_request.
Qed.

Lemma details_no_dump (paper_ids : pyval) :
  json_dumps (run_events (details paper_ids)) = [].
Proof.
  destruct (details_events paper_ids) as [notices [Hn [-> | [ids ->]]]];
    cbn; now apply prints_no_dump.
Qed.

Lemma extractor_records_ok (xml parsed : pyval) :
  run_result (extractor xml) = Ok parsed ->
  exists rs, parsed = PList rs /\ Forall record_ok rs.
Proof.
  unfold run_result, parse_pubmed_xml, bind, lift, print, emit.
  destruct (xmltodict_parse xml) as [tree|]; simpl; [|discriminate].
  intros H. apply extract_records_items in H
    as (aset & arts & items & rs & _ & _ & _ & Hrs & ->).
  exists rs. split; [reflexivity|].
  apply map_res_Forall2 in Hrs.
  induction Hrs as [|a r l rs Har _ IH]; constructor; auto.
  now apply parse_article_shape in Har.
Qed.

Lemma json_dumps_cons_print (args : list pyval) (l : list event) :
  json_dumps (EvPrint args :: l) = json_dumps l.
Proof. reflexivity. Qed.

Lemma requests_cons_print (args : list pyval) (l : list event) :
  requests (EvPrint args :: l) = requests l.
Proof. reflexivity. Qed.

Ltac lines := unfold searching_line, fetched_line, extracting_line, saved_line.

Lemma json_dumps_cons_dump (f : pystr) (d : pyval) (l : list event) :
  json_dumps (EvJsonDump f d :: l) = (f, d) :: json_dumps l.
Proof. reflexivity. Qed.

Lemma json_dumps_nil : json_dumps [] = [].
Proof. reflexivity. Qed.

Ltac no_dumps :=
  lines;
  repeat first
    [ rewrite json_dumps_app
    | rewrite json_dumps_cons_print
    | rewrite json_dumps_cons_dump
    | rewrite json_dumps_nil
    | rewrite search_no_dump
    | rewrite details_no_dump
    | rewrite (quiet_no_dump (quiet_parse py_repr xmltodict_parse _))
    | rewrite (quiet_no_dump (quiet_print_papers py_repr _ _)) ];
  cbn [app]; rewrite ?app_nil_r.

Lemma requests_cons_dump (f : pystr) (d : pyval) (l : list event) :
  requests (EvJsonDump f d :: l) = requests l.
Proof. reflexivity. Qed.

Lemma requests_cons_get (u : pystr) (ps : list (pystr * pyval)) (l : list event) :
  requests (EvHttpGet u ps :: l) = (u, ps) :: requests l.
Proof. reflexivity. Qed.

Lemma requests_nil : requests [] = [].
Proof. reflexivity. Qed.

Lemma details_requests (paper_ids : pyval) :
  requests (run_events (details paper_ids)) = [] \/
  exists joined,
    requests (run_events (details paper_ids)) =
    [(efetch_url, details_params joined)].
Proof.
  destruct (details_events paper_ids) as [notices [Hn [-> | [joined ->]]]].
  - left. now apply prints_no_request.
  - right. exists joined.
    now rewrite requests_cons_get, (prints_no_request _ Hn).
Qed.

Lemma details_requests_ok (paper_ids xml : pyval) :
  py_truthy paper_ids = true ->
  run_result (details paper_ids) = Ok xml ->
  exists joined,
    requests (run_events (details paper_ids)) =
    [(efetch_url, details_params joined)].
Proof.
  intros Ht Hd.
  destruct (details_events_ok _ Ht Hd) as (joined & notices & -> & Hn).
  exists joined. now rewrite requests_cons_get, (prints_no_request _ Hn).
Qed.

Ltac reqs :=
  lines;
  repeat first
    [ rewrite requests_app
    | rewrite requests_cons_print
    | rewrite requests_cons_dump
    | rewrite requests_nil
    | rewrite search_requests
    | rewrite (quiet_no_request (quiet_parse py_repr xmltodict_parse _))
    | rewrite (quiet_no_request (quiet_print_papers py_repr _ _)) ];
  cbn [app]; rewrite ?app_nil_r.

(** X17: once Search has returned identifiers, the Detail Fetcher a text
    and the Extractor its records, the run depends on the affiliations
    alone: when they are all strings it ends normally and writes the
    records, once, to [pubmed_results.json]; when one of them is not a
    string it ends in [TypeError] while printing and writes nothing. *)
Theorem run_saves_records_or_raises
  (query : pystr) (ids xml : pyval) (rs : list pyval) (t : list event) :
  run_result (search (PStr query)) = Ok ids ->
  py_truthy ids = true ->
  run_result (details ids) = Ok xml ->
  run_result (extractor xml) = Ok (PList rs) ->
  fst (script query t) =
    (if forallb affiliations_are_strings rs then Ok tt else Raise TypeError) /\
  json_dumps (snd (script query t)) =
    json_dumps t ++
    (if forallb affiliations_are_strings rs
     then [(output_file, PList rs)] else []).
Proof.
  intros Hs Htruthy Hd Hx.
  destruct (extractor_records_ok _ Hx) as [rs' [Heq Hok]].
  injection Heq as <-.
  rewrite main_cases. cbv zeta. rewrite Hs, Htruthy, Hd, Hx. cbn [py_iter].
  destruct (forallb affiliations_are_strings rs) eqn:Hstr.
  - assert (Hrun : run_result (print_papers py_repr rs 1) = Ok tt).
    { unfold run_result. now rewrite (print_papers_run py_repr Hok 1%Z [] Hstr). }
    rewrite Hrun. split; [reflexivity|]. cbn [snd]. no_dumps. reflexivity.
  - assert (Hrun : run_result (print_papers py_repr rs 1) = Raise TypeError).
    { exact (print_papers_raises py_repr Hok 1%Z [] Hstr). }
    rewrite Hrun. split; [reflexivity|]. cbn [snd]. no_dumps. reflexivity.
Qed.

Lemma main_run (query : pystr) :
  script query [] = (run_result (script query), run_events (script query)).
Proof. unfold run_result, run_events. now destruct (script query []). Qed.

(** X18: in every run the output file is written at most once, and only
    at the very end of a run in which Search, Detail Fetcher, Extractor and
    printing all returned: it then holds what the Extractor returned, the
    run ends normally, and exactly two requests were made, the search and
    then the fetch. *)
Theorem file_written_only_at_the_end (query : pystr) :
  json_dumps (run_events (script query)) = [] \/
  exists ids xml parsed joined,
    run_result (search (PStr query)) = Ok ids /\
    py_truthy ids = true /\
    run_result (details ids) = Ok xml /\
    run_result (extractor xml) = Ok parsed /\
    run_result (script query) = Ok tt /\
    json_dumps (run_events (script query)) = [(output_file, parsed)] /\
    requests (run_events (script query)) =
      [ (esearch_url, search_params (PStr query));
        (efetch_url, details_params joined) ].
Proof.
  pose proof (main_run query) as Hmain. rewrite main_cases in Hmain.
  cbv zeta in Hmain. cbn [app] in Hmain.
  destruct (run_result (search (PStr query))) as [ids|e] eqn:Hs;
    [|injection Hmain as _ <-; left; no_dumps; reflexivity].
  destruct (py_truthy ids) eqn:Htruthy;
    [|injection Hmain as _ <-; left; no_dumps; reflexivity].
  destruct (run_result (details ids)) as [xml|e] eqn:Hd;
    [|injection Hmain as _ <-; left; no_dumps; reflexivity].
  destruct (run_result (extractor xml)) as [parsed|e] eqn:Hx;
    [|injection Hmain as _ <-; left; no_dumps; reflexivity].
  destruct (py_iter parsed) as [papers|e];
    [|injection Hmain as _ <-; left; no_dumps; reflexivity].
  destruct (run_result (print_papers py_repr papers 1)) as [[]|e];
    [|injection Hmain as _ <-; left; no_dumps; reflexivity].
  injection Hmain as <- <-.
  right. destruct (details_requests_ok _ Htruthy Hd) as [joined Hreq].
  exists ids, xml, parsed, joined. repeat split; auto.
  - no_dumps. reflexivity.
  - reqs. now rewrite Hreq.
Qed.

(** X19: every run starts its network traffic with the search request and
    makes at most one more request, to the fetch endpoint. *)
Theorem search_first_then_at_most_one_fetch (query : pystr) :
  requests (run_events (script query)) =
    [(esearch_url, search_params (PStr query))] \/
  exists joined,
    requests (run_events (script query)) =
      [ (esearch_url, search_params (PStr query));
        (efetch_url, details_params joined) ].
Proof.
  pose proof (main_run query) as Hmain. rewrite main_cases in Hmain.
  cbv zeta in Hmain. cbn [app] in Hmain.
  destruct (run_result (search (PStr query))) as [ids|e];
    [|injection Hmain as _ <-; left; reqs; reflexivity].
  destruct (py_truthy ids);
    [|injection Hmain as _ <-; left; reqs; reflexivity].
  assert (Hgoal : forall tail : list event,
             requests tail = [] ->
             requests (searching_line query
                         :: run_events (search (PStr query))
                            ++ fetched_line ids :: run_events (details ids) ++ tail) =
               [(esearch_url, search_params (PStr query))] \/
             exists joined,
               requests (searching_line query
                           :: run_events (search (PStr query))
                              ++ fetched_line ids :: run_events (details ids) ++ tail) =
               [ (esearch_url, search_params (PStr query));
                 (efetch_url, details_params joined) ]).
  { intros tail Htail. reqs. rewrite Htail, app_nil_r.
    destruct (details_requests ids) as [-> | [joined ->]];
      [now left | right; now exists joined]. }
  destruct (run_result (details ids)) as [xml|e].
  - destruct (run_result (extractor xml)) as [parsed|e].
    + destruct (py_iter parsed) as [papers|e].
      * destruct (run_result (print_papers py_repr papers 1)) as [[]|e];
          injection Hmain as _ <-; rewrite <- ?app_assoc; cbn [app];
          apply Hgoal; reqs; reflexivity.
      * injection Hmain as _ <-. rewrite <- ?app_assoc. cbn [app].
        apply Hgoal. reqs. reflexivity.
    + injection Hmain as _ <-. rewrite <- ?app_assoc. cbn [app].
      apply Hgoal. reqs. reflexivity.
  - injection Hmain as _ <-. rewrite <- ?app_assoc. cbn [app].
    rewrite <- (app_nil_r (run_events (details ids))).
    apply Hgoal. reflexivity.
Qed.

(** X20: a failed detail fetch does not stop the run: the [None] it
    returns is handed to the Extractor, and when the parser rejects it the
    run ends in the parser's exception, after the "Extracting" line and
    without writing the file. *)
Theorem failed_fetch_still_runs_the_parser
  (query : pystr) (ids : pyval) (e : exn) (t : list event) :
  run_result (search (PStr query)) = Ok ids ->
  py_truthy ids = true ->
  run_result (details ids) = Ok PNone ->
  xmltodict_parse PNone = Raise e ->
  fst (script query t) = Raise e /\
  json_dumps (snd (script query t)) = json_dumps t /\
  In extracting_line (snd (script query t)).
Proof.
  intros Hs Htruthy Hd Hparse.
  assert (Hx : run_result (extractor PNone) = Raise e).
  { unfold run_result, parse_pubmed_xml, bind, lift. now rewrite Hparse. }
  rewrite main_cases. cbv zeta. rewrite Hs, Htruthy, Hd, Hx. cbn [fst snd].
  split; [reflexivity|]. split.
  - no_dumps. reflexivity.
  - apply in_or_app. right. left. reflexivity.
Qed.

End Run.

(** ** The further statements at sample inputs *)

Lemma search_returns_idlist_witness :
  fetch_pubmed_papers net_two_ids (str "cancer genomics") [] =
  (Ok (PList [str "111"; str "222"]),
   [EvHttpGet esearch_url (search_params (str "cancer genomics"))]).
Proof.
  apply (@search_returns_idlist_unchanged net_two_ids (str "cancer genomics")
           (PList [str "111"; str "222"])
           (mkResponse 200 (Ok (PDict idlist_body)) [])
           idlist_body [(lit "idlist", PList [str "111"; str "222"])] []);
    reflexivity.
Defined.

Lemma search_exceptions_witness :
  fetch_pubmed_papers net_down (str "cancer genomics") [] =
  (Raise ExternalError,
   [EvHttpGet esearch_url (search_params (str "cancer genomics"))]).
Proof.
  apply (@search_exceptions_propagate net_down (str "cancer genomics")
           ExternalError []).
  left. reflexivity.
Defined.

Lemma search_non_object_body_witness :
  fetch_pubmed_papers net_array_body (str "cancer genomics") [] =
  (Raise AttributeError,
   [EvHttpGet esearch_url (search_params (str "cancer genomics"))]).
Proof.
  apply (@search_non_object_body_raises net_array_body (str "cancer genomics")
           (PList []) (mkResponse 200 (Ok (PList [])) []) []);
    try reflexivity.
  left. reflexivity.
Defined.

Lemma details_success_witness :
  fetch_paper_details net_two_ids (PList [str "111"; str "222"]) [] =
  (Ok (str "<PubmedArticleSet/>"),
   [EvHttpGet efetch_url
      [ (lit "db", str "pubmed"); (lit "id", str "111,222");
        (lit "retmode", str "xml") ]]).
Proof.
  apply (@details_success net_two_ids [lit "111"; lit "222"]
           (mkResponse 200 (Raise ExternalError) (lit "<PubmedArticleSet/>")) []).
  - discriminate.
  - reflexivity.
  - reflexivity.
Defined.

Lemma details_failure_witness :
  fetch_paper_details net_fetch_refused (PList [str "111"; str "222"]) [] =
  (Ok PNone,
   [ EvHttpGet efetch_url (details_params (lit "111,222"));
     EvPrint [PStr details_error_banner; PInt 429] ]).
Proof.
  apply (@details_failure_gives_none net_fetch_refused [lit "111"; lit "222"]
           (mkResponse 429 (Raise ExternalError) (lit "Too Many Requests")) []).
  - discriminate.
  - reflexivity.
  - simpl. lia.
Defined.

Lemma details_non_string_id_witness :
  fetch_paper_details net_two_ids (PList [str "111"; PInt 222]) [] =
  (Raise TypeError, []).
Proof.
  apply (@details_non_string_id_raises net_two_ids [str "111"; PInt 222] []).
  reflexivity.
Defined.

Lemma missing_articles_witness :
  parse_pubmed_xml sample_repr (parse_to (PDict doc_other_root)) (str "<eFetchResult/>") [] =
  (Ok (PList []), [EvPrint [PStr debug_banner; PDict doc_other_root]]).
Proof.
  apply (@missing_articles_give_no_records sample_repr
           (parse_to (PDict doc_other_root)) (str "<eFetchResult/>")
           doc_other_root []).
  - reflexivity.
  - left. reflexivity.
Defined.

Lemma empty_article_set_witness :
  parse_pubmed_xml sample_repr (parse_to (PDict doc_empty_set))
    (str "<PubmedArticleSet/>") [] =
  (Raise AttributeError, [EvPrint [PStr debug_banner; PDict doc_empty_set]]).
Proof.
  apply (@empty_article_set_raises sample_repr (parse_to (PDict doc_empty_set))
           (str "<PubmedArticleSet/>") PNone doc_empty_set []);
    reflexivity.
Defined.

Lemma non_list_article_node_witness :
  extract_records sample_repr (document (str "stray text")) = Raise AttributeError /\
  extract_records sample_repr (document PNone) = Raise TypeError.
Proof.
  split.
  - apply (@non_list_article_node_raises sample_repr
             (document (str "stray text"))
             (PDict [(lit "PubmedArticle", str "stray text")]) (str "stray text"));
      try reflexivity.
    left. reflexivity.
  - apply (@non_list_article_node_raises sample_repr (document PNone)
             (PDict [(lit "PubmedArticle", PNone)]) PNone);
      try reflexivity.
    right. reflexivity.
Defined.

Lemma records_follow_document_order_witness :
  exists rs,
    extract_records sample_repr two_article_doc = Ok (PList rs) /\
    List.length rs = 2.
Proof.
  destruct (@records_follow_document_order sample_repr two_article_doc
              (PDict [(lit "PubmedArticle", PList [article_a; article_untitled])])
              [article_a; article_untitled] eq_refl eq_refl) as [_ Htotal].
  apply Htotal.
  repeat constructor; eexists; reflexivity.
Defined.

Lemma first_failing_article_witness :
  extract_records sample_repr
    (document (PList [article_a; article_bad_author; article_untitled])) =
  Raise AttributeError.
Proof.
  apply (@first_failing_article_aborts sample_repr
           (document (PList [article_a; article_bad_author; article_untitled]))
           (PDict [(lit "PubmedArticle",
                    PList [article_a; article_bad_author; article_untitled])])
           article_bad_author [article_a] [article_untitled] AttributeError).
  - reflexivity.
  - reflexivity.
  - repeat constructor. eexists. reflexivity.
  - reflexivity.
Defined.

Lemma list_form_article_outcome_witness :
  exists title,
    title_of info_bad_author = Ok title /\
    parse_article sample_repr article_bad_author = Raise AttributeError.
Proof.
  apply (@list_form_article_outcome sample_repr article_bad_author
           info_bad_author [jane_doe; PNone]); reflexivity.
Defined.

Lemma title_is_passed_through_witness :
  parse_article sample_repr article_a =
    finish_article sample_repr info_a (str "Study A") /\
  (forall r, parse_article sample_repr article_a = Ok r ->
             py_getitem r (lit "title") = Ok (str "Study A")).
Proof.
  apply (@title_is_passed_through sample_repr article_a (str "Study A")
           [ (lit "ArticleTitle", str "Study A");
             (lit "AuthorList", PDict [(lit "Author", PList authors_a)]) ]);
    reflexivity.
Defined.

Lemma record_a_ok : record_ok record_a.
Proof.
  exists (str "Study A"), [str "Jane Doe"; str "John Roe"], [str "Lab X"; str "Lab Y"].
  split; [reflexivity|].
  repeat constructor; eexists; (split; [reflexivity | discriminate]).
Defined.

Lemma record_untitled_ok : record_ok record_untitled.
Proof.
  exists no_title, [], []. split; [reflexivity | constructor].
Defined.

Lemma print_paper_outcome_witness :
  exists title authors affiliations,
    record_a = record title authors affiliations /\
    print_paper sample_repr 1 record_a [] =
    if forallb is_str affiliations then
      (Ok tt,
       [] ++ [ paper_header 1; title_line sample_repr title;
               authors_line authors; affiliations_line affiliations ])
    else
      (Raise TypeError,
       [] ++ [ paper_header 1; title_line sample_repr title; authors_line authors ]).
Proof.
  apply (@print_paper_outcome sample_repr 1%Z record_a [] record_a_ok).
Defined.

Lemma papers_are_numbered_witness :
  exists lines,
    print_papers sample_repr [record_a; record_untitled] 1 [] = (Ok tt, [] ++ lines) /\
    List.length lines = 4 * 2 /\
    (forall k, k < 2 ->
       nth_error lines (4 * k) = Some (paper_header (1 + Z.of_nat k))).
Proof.
  apply (@papers_are_numbered_in_order sample_repr
           [record_a; record_untitled] 1%Z []).
  - repeat constructor; [apply record_a_ok | apply record_untitled_ok].
  - reflexivity.
Defined.

Lemma run_saves_records_witness :
  fst (main sample_repr (parse_to two_article_doc) net_two_ids
         (lit "cancer genomics") []) = Ok tt /\
  json_dumps (snd (main sample_repr (parse_to two_article_doc) net_two_ids
                     (lit "cancer genomics") [])) =
    [(output_file, PList [record_a; record_untitled])].
Proof.
  apply (@run_saves_records_or_raises sample_repr (parse_to two_article_doc)
           net_two_ids (lit "cancer genomics")
           (PList [str "111"; str "222"]) (str "<PubmedArticleSet/>")
           [record_a; record_untitled] []); reflexivity.
Defined.

Lemma failed_fetch_witness :
  fst (main sample_repr parse_fails net_fetch_refused (lit "cancer genomics") []) =
    Raise ExternalError /\
  json_dumps (snd (main sample_repr parse_fails net_fetch_refused
                     (lit "cancer genomics") [])) = [] /\
  In extracting_line
     (snd (main sample_repr parse_fails net_fetch_refused (lit "cancer genomics") [])).
Proof.
  apply (@failed_fetch_still_runs_the_parser sample_repr parse_fails
           net_fetch_refused (lit "cancer genomics")
           (PList [str "111"; str "222"]) ExternalError []); reflexivity.
Defined.

(** ** Empty elements on the title path and in the names *)

(** C3: an article whose citation or article-info element is empty has no
    title path, and the loop body does not fall back to the placeholder
    there: the parser gives [None] for the empty element, [.get] on it
    raises [AttributeError], and the Extractor returns no record at all for
    the document. *)
Theorem empty_element_on_title_path_raises
  (py_repr : pyval -> pystr) (rest1 rest2 : list (pystr * pyval)) :
  let no_citation := PDict ((lit "MedlineCitation", PNone) :: rest1) in
  let no_info :=
    PDict [(lit "MedlineCitation", PDict ((lit "Article", PNone) :: rest2))] in
  (lookup_path title_path no_citation = None /\
   parse_article py_repr no_citation = Raise AttributeError) /\
  (lookup_path title_path no_info = None /\
   parse_article py_repr no_info = Raise AttributeError) /\
  extract_records py_repr (document (PList [article_a; no_info; article_untitled])) =
    Raise AttributeError.
Proof.
  cbv zeta. repeat split; reflexivity.
Qed.

(** C4: an author entry whose given-name and family-name elements are both
    empty is not skipped: the parser gives [None] for each, the f-string
    prints them as the word "None", and the name "None None" is appended to
    the authors, after the names before it. *)
Theorem empty_name_elements_give_none_none
  (py_repr : pyval -> pystr) (authors : list pyval) :
  authors_loop py_repr [author_empty_names] authors =
    Ok (authors ++ [PStr (lit "None None")]) /\
  extract_authors py_repr (PList [jane_doe; author_empty_names]) =
    Ok [PStr (lit "Jane Doe"); PStr (lit "None None")] /\
  parse_article py_repr article_empty_names =
    Ok (record (PStr (lit "Study D"))
          [PStr (lit "Jane Doe"); PStr (lit "None None")]
          [PStr (lit "Lab X"); PStr (lit "Lab Y")]).
Proof.
  repeat split; reflexivity.
Qed.
